(** * KrishiSahyog: crop-health, pest and soil scoring models

    A shallow embedding of [ai_models.py] (classes [CropHealthAnalyzer],
    [PestDetector], [SoilAnalyzer]) together with the parts of Python and
    numpy those classes call.

    Conventions of the embedding.
    - A Python [float] is an exact rational ([Q]); rounding, NaN and
      infinities are not represented.  Literals are written as in the
      source ([0.4], [75.0], ...).
    - A Python exception is a value of [Py.exn]; code that can raise returns
      [Py.result].
    - The global numpy generator is threaded explicitly: [Numpy.rng] is a
      stream of raw samples with a cursor, and every [np.random.*] call
      consumes the next sample.
    - [datetime.now().isoformat()] is the argument [now] of the analysers. *)

From Stdlib Require Import QArith Qround ZArith List String Ascii Bool.
From Stdlib Require Import Lia Lqa Permutation Sorted.
Import ListNotations.

Open Scope string_scope.
Open Scope list_scope.
Open Scope Q_scope.

(* ================================================================== *)
(** ** Python builtins *)

Module Py.

Inductive exn : Type :=
| AttributeError
| ValueError
| TypeError
| IndexError
| KeyError
| LinAlgError.

Inductive result (A : Type) : Type :=
| Ok (a : A)
| Raise (e : exn).

Arguments Ok {A} a.
Arguments Raise {A} e.

Definition is_ok {A} (r : result A) : bool :=
  match r with Ok _ => true | Raise _ => false end.

Definition rbind {A B} (r : result A) (f : A -> result B) : result B :=
  match r with
  | Ok a => f a
  | Raise e => Raise e
  end.

Notation "x <~ r ;; k" := (rbind r (fun x => k))
  (at level 100, r at next level, right associativity).

Definition Qltb (a b : Q) : bool := negb (Qle_bool b a).

(** [min(a, b)] on two arguments: the first one unless the second is
    strictly smaller. *)
Definition min (a b : Q) : Q := if Qltb b a then b else a.

(** [max(a, b)] on two arguments: the first one unless the second is
    strictly greater. *)
Definition max (a b : Q) : Q := if Qltb a b then b else a.

(** Position denoted by a slice bound [i] in a sequence of length [n]:
    negative bounds count from the end, and everything is clipped to
    [0..n]. *)
Definition slice_index (n : nat) (i : Z) : nat :=
  if (i <? 0)%Z then Z.to_nat (Z.max 0 (i + Z.of_nat n))
  else Nat.min (Z.to_nat i) n.

(** [l[lo:hi]]; a missing bound is [None]. *)
Definition slice {A} (lo hi : option Z) (l : list A) : list A :=
  let n := List.length l in
  let a := match lo with Some i => slice_index n i | None => 0%nat end in
  let b := match hi with Some i => slice_index n i | None => n end in
  firstn (b - a) (skipn a l).

(** [d[k]] on a dict given as an association list in insertion order. *)
Fixpoint getitem {V} (d : list (string * V)) (k : string) : result V :=
  match d with
  | [] => Raise KeyError
  | (k', v) :: d' => if String.eqb k' k then Ok v else getitem d' k
  end.

(** [d.get(k, default)]. *)
Definition get {V} (d : list (string * V)) (k : string) (default : V) : V :=
  match getitem d k with Ok v => v | Raise _ => default end.

Definition keys {V} (d : list (string * V)) : list string := map fst d.

(** [str.replace('_', ' ')]. *)
Fixpoint replace_underscore (s : string) : string :=
  match s with
  | EmptyString => EmptyString
  | String c s' =>
      String (if Ascii.eqb c "_"%char then " "%char else c)
             (replace_underscore s')
  end.

Definition is_lower (c : ascii) : bool :=
  let n := nat_of_ascii c in (97 <=? n)%nat && (n <=? 122)%nat.

Definition is_upper (c : ascii) : bool :=
  let n := nat_of_ascii c in (65 <=? n)%nat && (n <=? 90)%nat.

Definition upper (c : ascii) : ascii :=
  if is_lower c then ascii_of_nat (nat_of_ascii c - 32) else c.

Definition lower (c : ascii) : ascii :=
  if is_upper c then ascii_of_nat (nat_of_ascii c + 32) else c.

(** [str.title()] on ASCII text: a cased character is upper-cased when it
    follows an uncased one and lower-cased otherwise. *)
Fixpoint title_from (prev_cased : bool) (s : string) : string :=
  match s with
  | EmptyString => EmptyString
  | String c s' =>
      let cased := is_lower c || is_upper c in
      String (if prev_cased then lower c else upper c) (title_from cased s')
  end.

Definition title (s : string) : string := title_from false s.

(** A stable sort by decreasing integer key, the order produced by
    [list.sort(key=..., reverse=True)]: elements with equal keys keep their
    relative order. *)
Fixpoint insert_desc {A} (key : A -> Z) (x : A) (l : list A) : list A :=
  match l with
  | [] => [x]
  | y :: l' =>
      if (key x <? key y)%Z then y :: insert_desc key x l' else x :: l
  end.

Fixpoint sort_desc {A} (key : A -> Z) (l : list A) : list A :=
  match l with
  | [] => []
  | x :: l' => insert_desc key x (sort_desc key l')
  end.

(** [[f(x) for x in l]] where [f] may raise: the first exception wins. *)
Fixpoint map_result {A B} (f : A -> result B) (l : list A) : result (list B) :=
  match l with
  | [] => Ok []
  | x :: l' =>
      y <~ f x ;;
      ys <~ map_result f l' ;;
      Ok (y :: ys)
  end.

(** [l.sort(key=key, reverse=True)]: the keys are computed first, one per
    element and in order; then the elements are arranged by [sort_desc]. *)
Definition sort_by_key_reverse {A} (key : A -> result Z) (l : list A)
    : result (list A) :=
  decorated <~ map_result (fun x => k <~ key x ;; Ok (k, x)) l ;;
  Ok (map snd (sort_desc fst decorated)).

End Py.

Import Py.

(* ================================================================== *)
(** ** The numpy functions used by the models *)

Module Numpy.

(** An [ndarray] of floats: its [shape] and its elements in row-major
    order. *)
Record ndarray : Type := mk_ndarray { shape : list nat; data : list Q }.

Definition of_nat (n : nat) : Q := inject_Z (Z.of_nat n).

Fixpoint sum (l : list Q) : Q :=
  match l with
  | [] => 0
  | x :: l' => x + sum l'
  end.

(** [np.mean] of a flattened array.  Of no element numpy yields NaN (with
    a warning, not an exception); the rational model yields 0 there. *)
Definition mean (l : list Q) : Q := sum l / of_nat (List.length l).

(** [np.max] and [np.min] raise [ValueError] on a zero-size array. *)
Definition amax (l : list Q) : result Q :=
  match l with
  | [] => Raise ValueError
  | x :: l' => Ok (fold_left (fun m y => if Qltb m y then y else m) l' x)
  end.

Definition amin (l : list Q) : result Q :=
  match l with
  | [] => Raise ValueError
  | x :: l' => Ok (fold_left (fun m y => if Qltb y m then y else m) l' x)
  end.

(** [np.trapz] with unit spacing. *)
Fixpoint trapz (l : list Q) : Q :=
  match l with
  | x :: ((y :: _) as l') => (x + y) / 2 + trapz l'
  | _ => 0
  end.

Fixpoint insert_asc (x : Q) (l : list Q) : list Q :=
  match l with
  | [] => [x]
  | y :: l' => if Qle_bool x y then x :: l else y :: insert_asc x l'
  end.

Definition sort_asc (l : list Q) : list Q := fold_right insert_asc [] l.

(** [np.percentile(a, q)] with the default linear interpolation between
    the two order statistics around the position [(n-1)*q/100]. *)
Definition percentile (l : list Q) (q : Q) : Q :=
  let s := sort_asc l in
  let n := List.length s in
  let pos := of_nat (n - 1) * q / 100 in
  let lo := Z.to_nat (Qfloor pos) in
  let hi := Nat.min (S lo) (n - 1) in
  let g := pos - of_nat lo in
  nth lo s 0 + g * (nth hi s 0 - nth lo s 0).

Section Std.

(** The square root is the one operation of the models that leaves the
    rationals; it is a parameter of the embedding. *)
Variable sqrt : Q -> Q.

(** [np.std]: the square root of the mean squared deviation. *)
Definition std (l : list Q) : Q :=
  let m := mean l in
  sqrt (mean (map (fun x => (x - m) * (x - m)) l)).

End Std.

(** [np.mean(a, axis=(0, 1))] of a 3-D array: one mean per band, over all
    pixels. *)
Definition mean_axis01 (a : ndarray) : list Q :=
  match shape a with
  | [h; w; b] =>
      map (fun k =>
             mean (map (fun p => nth (p * b + k) (data a) 0)
                       (seq 0 (h * w))))
          (seq 0 b)
  | _ => []
  end.

Definition arange (n : nat) : list Q := map of_nat (seq 0 n).

Fixpoint dot (x y : list Q) : Q :=
  match x, y with
  | a :: x', b :: y' => a * b + dot x' y'
  | _, _ => 0
  end.

(** [np.polyfit(x, y, 1)]: the least-squares line, as the pair
    (slope, intercept).  numpy raises [TypeError] on an empty [x].  With a
    single point the system is rank deficient: the column scaling divides
    by zero and the solver is handed a matrix that is not finite, which is
    modelled as its [LinAlgError]. *)
Definition polyfit1 (x y : list Q) : result (Q * Q) :=
  match x with
  | [] => Raise TypeError
  | [_] => Raise LinAlgError
  | _ =>
      let n := of_nat (List.length x) in
      let sx := sum x in
      let sy := sum y in
      let slope := (n * dot x y - sx * sy) / (n * dot x x - sx * sx) in
      Ok (slope, (sy - slope * sx) / n)
  end.

(** *** The pseudo-random generator *)

(** The generator state: an infinite stream of raw samples and the
    position of the next one. *)
Record rng : Type := mk_rng { samples : nat -> Q; cursor : nat }.

(** The [k]-th sample the generator will hand out from now on. *)
Definition upcoming (g : rng) (k : nat) : Q := samples g (cursor g + k).

(** What numpy promises of [random_sample]: a value of [[0, 1)]. *)
Definition unit_samples (g : rng) : Prop :=
  forall k, 0 <= samples g k /\ samples g k < 1.

(** Computations that draw from the generator and may raise. *)
Definition M (A : Type) : Type := rng -> result A * rng.

Definition ret {A} (a : A) : M A := fun g => (Ok a, g).

Definition raise {A} (e : exn) : M A := fun g => (Raise e, g).

Definition bind {A B} (m : M A) (f : A -> M B) : M B :=
  fun g =>
    match m g with
    | (Ok a, g') => f a g'
    | (Raise e, g') => (Raise e, g')
    end.

Definition lift {A} (r : result A) : M A := fun g => (r, g).

(** [try: body  except Exception: return default]. *)
Definition try_except {A} (body : M A) (default : A) : rng -> A * rng :=
  fun g =>
    match body g with
    | (Ok a, g') => (a, g')
    | (Raise _, g') => (default, g')
    end.

Declare Scope rng_scope.
Delimit Scope rng_scope with rng.
Notation "x <- m ;; k" := (bind m (fun x => k))
  (at level 100, m at next level, right associativity) : rng_scope.
Open Scope rng_scope.

Definition next_sample : M Q :=
  fun g => (Ok (samples g (cursor g)),
            {| samples := samples g; cursor := S (cursor g) |}).

(** [np.random.normal(loc, scale)]: the next raw sample is read as a
    standard normal deviate. *)
Definition normal (loc scale : Q) : M Q :=
  z <- next_sample ;; ret (loc + scale * z).

(** [np.random.uniform(low, high)]: [low + (high - low) * random_sample()]. *)
Definition uniform (low high : Q) : M Q :=
  u <- next_sample ;; ret (low + (high - low) * u).

(** [np.random.randint(low, high)]: an integer of [[low, high)], obtained
    here by scaling a unit sample. *)
Definition randint (low high : Z) : M Z :=
  u <- next_sample ;; ret (low + Qfloor (inject_Z (high - low) * u))%Z.

(** [np.random.choice(a)]: the element at a uniformly drawn index. *)
Definition choice {A} (a : list A) : M A :=
  match a with
  | [] => raise ValueError
  | _ =>
      i <- randint 0 (Z.of_nat (List.length a)) ;;
      if (i <? 0)%Z then raise IndexError
      else match nth_error a (Z.to_nat i) with
           | Some x => ret x
           | None => raise IndexError
           end
  end.

Fixpoint cumsum_from (acc : Q) (p : list Q) : list Q :=
  match p with
  | [] => []
  | x :: p' => (acc + x) :: cumsum_from (acc + x) p'
  end.

(** [cdf.searchsorted(u, side='right')]: how many entries are [<= u]. *)
Definition searchsorted_right (cdf : list Q) (u : Q) : nat :=
  List.length (filter (fun c => Qle_bool c u) cdf).

(** [np.random.choice(a, p=p)]: inverse-CDF sampling on the normalised
    cumulative weights. *)
Definition choice_p {A} (a : list A) (p : list Q) : M A :=
  u <- next_sample ;;
  let cdf := cumsum_from 0 p in
  let total := last cdf 1 in
  let cdf := map (fun c => c / total) cdf in
  match nth_error a (searchsorted_right cdf u) with
  | Some x => ret x
  | None => raise IndexError
  end.

End Numpy.

Import Numpy.
Open Scope rng_scope.

(** What the analysers are handed as [hyperspectral_data]: an array, or
    some object without a [shape] attribute (the caller in [app.py] passes
    the dict returned by [load_and_preprocess]). *)
Inductive pyobj : Type :=
| PArray (a : ndarray)
| PObject.

(** A value of the spectral-index dict: a per-pixel array, or anything
    else (a scene-level scalar). *)
Inductive index_value : Type :=
| IArray (a : ndarray)
| IScalar (q : Q).

(** [data.shape]. *)
Definition shape_of (d : pyobj) : result (list nat) :=
  match d with
  | PArray a => Ok (shape a)
  | PObject => Raise AttributeError
  end.

(* ================================================================== *)
(** ** class CropHealthAnalyzer *)

Module CropHealthAnalyzer.

Record HealthResult : Type := mk_health {
  chlorophyll_content : Q;
  water_stress : Q;
  nutrient_deficiency : Q;
  disease_risk : Q;
  overall_score : Q;
  health_status : string;
  recommendations : list string;
  analysis_timestamp : string
}.

(** [self.health_thresholds]. *)
Record thresholds : Type := mk_thresholds {
  excellent : Q; healthy : Q; attention_needed : Q; poor : Q
}.

Definition health_thresholds : thresholds :=
  {| excellent := 90; healthy := 70; attention_needed := 50; poor := 30 |}.

(** The record returned by the [except] branch of [analyze]. *)
Definition default_result (now : string) : HealthResult :=
  {| chlorophyll_content := 75.0;
     water_stress := 25.0;
     nutrient_deficiency := 15.0;
     disease_risk := 12.0;
     overall_score := 78.0;
     health_status := "healthy";
     recommendations := ["Monitor field conditions";
                         "Continue current management practices"];
     analysis_timestamp := now |}.

Definition _calculate_red_edge_slope (spectrum : list Q) : result Q :=
  let n := Z.of_nat (List.length spectrum) in
  let red_edge_start := Z.min 60 (n - 10) in
  let red_edge_end := Z.min 70 n in
  if (red_edge_end >? red_edge_start)%Z then
    let red_edge_values :=
      slice (Some red_edge_start) (Some red_edge_end) spectrum in
    let x := arange (List.length red_edge_values) in
    c <~ polyfit1 x red_edge_values ;;
    Ok (fst c)
  else Ok 0.0.

Section Features.

Variable sqrt : Q -> Q.

(** The six statistics appended for one index array. *)
Definition index_statistics (index_data : ndarray) : result (list Q) :=
  let d := data index_data in
  let m := mean d in
  let s := std sqrt d in
  let p25 := percentile d 25 in
  let p75 := percentile d 75 in
  lo <~ amin d ;;
  hi <~ amax d ;;
  Ok [m; s; p25; p75; lo; hi].

(** The loop over [indices.items()], in insertion order. *)
Fixpoint index_loop (features : list Q)
    (items : list (string * index_value)) : result (list Q) :=
  match items with
  | [] => Ok features
  | (_, IArray index_data) :: rest =>
      f <~ index_statistics index_data ;;
      index_loop (features ++ f) rest
  | (_, IScalar _) :: rest => index_loop features rest
  end.

Definition _extract_health_features (data : pyobj)
    (indices : list (string * index_value)) : result (list Q) :=
  features <~ index_loop [] indices ;;
  shp <~ shape_of data ;;
  if (List.length shp =? 3)%nat then
    match data with
    | PArray a =>
        let avg_spectrum := mean_axis01 a in
        red_edge_slope <~ _calculate_red_edge_slope avg_spectrum ;;
        let features := features ++ [red_edge_slope] in
        let spectral_auc := trapz avg_spectrum in
        let features := features ++ [spectral_auc] in
        blue <~ amax (slice None (Some 50%Z) avg_spectrum) ;;
        green <~ amax (slice (Some 50%Z) (Some 100%Z) avg_spectrum) ;;
        red <~ amin (slice (Some 100%Z) (Some 150%Z) avg_spectrum) ;;
        nir <~ amax (slice (Some 150%Z) None avg_spectrum) ;;
        Ok (features ++ [blue; green; red; nir])
    | PObject => Raise AttributeError
    end
  else Ok features.

End Features.

Definition _analyze_chlorophyll_content (features : list Q) : M Q :=
  if (0 <? List.length features)%nat then
    let ndvi_mean := nth 0 features 0.5 in
    let chlorophyll := Py.min 100 (Py.max 0 ((ndvi_mean + 0.3) * 100)) in
    noise <- normal 0 5 ;;
    let chlorophyll := chlorophyll + noise in
    ret (Py.max 0 (Py.min 100 chlorophyll))
  else ret 75.0.

Definition _analyze_water_stress (features : list Q) : M Q :=
  if (6 <? List.length features)%nat then
    let ndvi_std := nth 1 features 0.1 in
    let water_stress := Py.min 100 (ndvi_std * 200) in
    baseline <- uniform 10 30 ;;
    let water_stress := water_stress + baseline in
    ret (Py.max 0 (Py.min 100 water_stress))
  else ret 20.0.

Definition _analyze_nutrient_deficiency (features : list Q) : M Q :=
  if (0 <? List.length features)%nat then
    let chlorophyll_proxy := nth 0 features 0.5 in
    let nutrient_deficiency := Py.max 0 ((1 - chlorophyll_proxy) * 50) in
    variation <- uniform 5 15 ;;
    let nutrient_deficiency := nutrient_deficiency + variation in
    ret (Py.max 0 (Py.min 100 nutrient_deficiency))
  else ret 15.0.

Definition _analyze_disease_risk (features : list Q) : M Q :=
  if (1 <? List.length features)%nat then
    let spectral_variability := nth 1 features 0.1 in
    let disease_risk := Py.min 50 (spectral_variability * 100) in
    baseline <- uniform 5 15 ;;
    let disease_risk := disease_risk + baseline in
    ret (Py.max 0 (Py.min 100 disease_risk))
  else ret 12.0.

(** The local [weights] dict of [_calculate_overall_health_score]. *)
Record weights_t : Type := mk_weights {
  w_chlorophyll : Q; w_water_stress : Q;
  w_nutrient_deficiency : Q; w_disease_risk : Q
}.

Definition weights : weights_t :=
  {| w_chlorophyll := 0.4; w_water_stress := 0.25;
     w_nutrient_deficiency := 0.2; w_disease_risk := 0.15 |}.

Definition _calculate_overall_health_score
    (chlorophyll water_stress nutrient_deficiency disease_risk : Q) : Q :=
  let health_score :=
    w_chlorophyll weights * chlorophyll +
    w_water_stress weights * (100 - water_stress) +
    w_nutrient_deficiency weights * (100 - nutrient_deficiency) +
    w_disease_risk weights * (100 - disease_risk) in
  Py.max 0 (Py.min 100 health_score).

Definition _get_health_status (overall_score : Q) : string :=
  if Qle_bool (excellent health_thresholds) overall_score then "excellent"
  else if Qle_bool (healthy health_thresholds) overall_score then "healthy"
  else if Qle_bool (attention_needed health_thresholds) overall_score
       then "attention_needed"
  else "poor".

Definition catch_all : string :=
  "Field appears healthy - maintain current practices".

Definition _generate_health_recommendations
    (chlorophyll water_stress nutrient_deficiency disease_risk
     overall_score : Q) : list string :=
  let recommendations := [] in
  let recommendations :=
    if Qltb chlorophyll 60 then
      recommendations ++
      ["Consider nitrogen fertilizer application to improve chlorophyll content"]
    else recommendations in
  let recommendations :=
    if Qltb 40 water_stress then
      recommendations ++
      ["Implement irrigation or water management strategies"]
    else recommendations in
  let recommendations :=
    if Qltb 30 nutrient_deficiency then
      recommendations ++
      ["Conduct soil test and apply appropriate fertilizers"]
    else recommendations in
  let recommendations :=
    if Qltb 25 disease_risk then
      recommendations ++
      ["Monitor for disease symptoms and consider preventive treatments"]
    else recommendations in
  let recommendations :=
    if Qltb overall_score 50 then
      recommendations ++
      ["Immediate attention required - conduct field inspection"]
    else if Qltb overall_score 70 then
      recommendations ++
      ["Monitor closely and consider management interventions"]
    else recommendations ++ ["Continue current management practices"] in
  match recommendations with
  | [] => [catch_all]
  | _ => recommendations
  end.

(** The four analysers, the overall score and the record construction
    that follow feature extraction in the [try] block. *)
Definition score (features : list Q) (now : string) : M HealthResult :=
  chlorophyll_content <- _analyze_chlorophyll_content features ;;
  water_stress <- _analyze_water_stress features ;;
  nutrient_deficiency <- _analyze_nutrient_deficiency features ;;
  disease_risk <- _analyze_disease_risk features ;;
  let overall_score :=
    _calculate_overall_health_score
      chlorophyll_content water_stress nutrient_deficiency disease_risk in
  let recommendations :=
    _generate_health_recommendations
      chlorophyll_content water_stress nutrient_deficiency disease_risk
      overall_score in
  ret {| chlorophyll_content := chlorophyll_content;
         water_stress := water_stress;
         nutrient_deficiency := nutrient_deficiency;
         disease_risk := disease_risk;
         overall_score := overall_score;
         health_status := _get_health_status overall_score;
         recommendations := recommendations;
         analysis_timestamp := now |}.

Section Analyze.

Variable sqrt : Q -> Q.

Definition analyze_body (hyperspectral_data : pyobj)
    (spectral_indices : list (string * index_value)) (now : string)
    : M HealthResult :=
  features <-
    lift (_extract_health_features sqrt hyperspectral_data spectral_indices) ;;
  score features now.

Definition analyze (hyperspectral_data : pyobj)
    (spectral_indices : list (string * index_value)) (now : string)
    : rng -> HealthResult * rng :=
  try_except (analyze_body hyperspectral_data spectral_indices now)
             (default_result now).

End Analyze.

End CropHealthAnalyzer.

(* ================================================================== *)
(** ** class PestDetector *)

Module PestDetector.

Record Detection : Type := mk_detection {
  type : string;
  confidence : Q;
  severity : string;
  location_x : Q;
  location_y : Q;
  recommendation : string
}.

Record pest_info : Type := mk_pest_info {
  spectral_signature : string;
  typical_locations : string;
  severity_factors : list string
}.

(** [self.pest_database], in insertion order. *)
Definition pest_database : list (string * pest_info) :=
  [ ("aphids",
     {| spectral_signature := "green_yellow_stress";
        typical_locations := "leaf_undersides";
        severity_factors := ["density"; "spread_rate"] |});
    ("corn_borer",
     {| spectral_signature := "internal_damage";
        typical_locations := "stalk_entry_points";
        severity_factors := ["tunnel_length"; "plant_stage"] |});
    ("leaf_rust",
     {| spectral_signature := "orange_red_pustules";
        typical_locations := "leaf_surfaces";
        severity_factors := ["pustule_density"; "leaf_coverage"] |});
    ("spider_mites",
     {| spectral_signature := "stippling_yellowing";
        typical_locations := "leaf_surfaces";
        severity_factors := ["coverage_area"; "population_density"] |}) ].

Definition severities : list string := ["Low"; "Medium"; "High"].

Definition confidence_ranges : list (string * (Q * Q)) :=
  [ ("Low", (0.6, 0.8)); ("Medium", (0.7, 0.9)); ("High", (0.8, 0.95)) ].

Definition recommendations : list (string * list string) :=
  [ ("aphids",
     ["Monitor population levels";
      "Consider beneficial insects release";
      "Apply targeted insecticide if needed"]);
    ("corn_borer",
     ["Immediate treatment recommended";
      "Apply approved insecticide";
      "Monitor neighboring plants"]);
    ("leaf_rust",
     ["Apply fungicide treatment";
      "Remove infected plant material";
      "Improve air circulation"]);
    ("spider_mites",
     ["Increase humidity levels";
      "Apply miticide treatment";
      "Monitor for natural predators"]) ].

Definition _create_pest_detection (pest_type : string) (height width : nat)
    : M Detection :=
  severity <- choice_p severities [0.4; 0.4; 0.2] ;;
  conf_range <- lift (getitem confidence_ranges severity) ;;
  confidence <- uniform (fst conf_range) (snd conf_range) ;;
  location_x <- uniform 0 (of_nat width) ;;
  location_y <- uniform 0 (of_nat height) ;;
  recommendation <-
    choice (Py.get recommendations pest_type ["Monitor closely"]) ;;
  ret {| type := title (replace_underscore pest_type);
         confidence := confidence;
         severity := severity;
         location_x := location_x;
         location_y := location_y;
         recommendation := recommendation |}.

(** The sort key [{'High': 3, 'Medium': 2, 'Low': 1}[x['severity']]]. *)
Definition severity_key (x : Detection) : result Z :=
  getitem [("High", 3%Z); ("Medium", 2%Z); ("Low", 1%Z)] (severity x).

(** [height, width = hyperspectral_data.shape[:2]]. *)
Definition unpack_height_width (shp : list nat) : result (nat * nat) :=
  match slice None (Some 2%Z) shp with
  | [height; width] => Ok (height, width)
  | _ => Raise ValueError
  end.

(** The [for _ in range(n)] loop, appending one detection per round. *)
Fixpoint detection_loop (n height width : nat) (detections : list Detection)
    : M (list Detection) :=
  match n with
  | O => ret detections
  | S n' =>
      pest_type <- choice (keys pest_database) ;;
      detection <- _create_pest_detection pest_type height width ;;
      detection_loop n' height width (detections ++ [detection])
  end.

(** The [try] block up to the sort: the detections in generation order. *)
Definition generate (hyperspectral_data : pyobj) : M (list Detection) :=
  shp <- lift (shape_of hyperspectral_data) ;;
  hw <- lift (unpack_height_width shp) ;;
  num_detections <- randint 0 4 ;;
  detection_loop (Z.to_nat num_detections) (fst hw) (snd hw) [].

Definition detect_body (hyperspectral_data : pyobj) : M (list Detection) :=
  detections <- generate hyperspectral_data ;;
  lift (sort_by_key_reverse severity_key detections).

Definition detect (hyperspectral_data : pyobj) : rng -> list Detection * rng :=
  try_except (detect_body hyperspectral_data) [].

End PestDetector.

(* ================================================================== *)
(** ** class SoilAnalyzer *)

Module SoilAnalyzer.

Record SoilResult : Type := mk_soil {
  ph_level : Q;
  organic_matter : Q;
  moisture_content : Q;
  nitrogen_level : Q;
  phosphorus_level : Q;
  potassium_level : Q;
  recommendations : list string;
  analysis_timestamp : string
}.

(** The record returned by the [except] branch of [analyze]. *)
Definition default_result (now : string) : SoilResult :=
  {| ph_level := 6.8;
     organic_matter := 4.2;
     moisture_content := 67.0;
     nitrogen_level := 75.0;
     phosphorus_level := 68.0;
     potassium_level := 72.0;
     recommendations := ["Monitor soil conditions regularly"];
     analysis_timestamp := now |}.

Section Features.

Variable sqrt : Q -> Q.

Definition _extract_soil_features (data : pyobj) : result (list Q) :=
  shp <~ shape_of data ;;
  if (List.length shp =? 3)%nat then
    match data with
    | PArray a =>
        let avg_spectrum := mean_axis01 a in
        let f_mean := mean avg_spectrum in
        let f_std := std sqrt avg_spectrum in
        f_max <~ amax avg_spectrum ;;
        f_min <~ amin avg_spectrum ;;
        Ok [f_mean; f_std; f_max; f_min; trapz avg_spectrum]
    | PObject => Raise AttributeError
    end
  else Ok [0.5; 0.1; 0.8; 0.1; 50.0].

End Features.

Definition _estimate_ph_level (features : list Q) : M Q :=
  noise <- normal 0 0.5 ;;
  let base_ph := 6.5 + noise in
  ret (Py.max 4.0 (Py.min 8.5 base_ph)).

Definition _estimate_organic_matter (features : list Q) : M Q :=
  noise <- normal 0 1.0 ;;
  let base_om := 3.5 + noise in
  ret (Py.max 1.0 (Py.min 8.0 base_om)).

Definition _estimate_moisture_content (features : list Q) : M Q :=
  noise <- normal 0 15 ;;
  let base_moisture := 45 + noise in
  ret (Py.max 0 (Py.min 100 base_moisture)).

Definition _estimate_nitrogen_level (features : list Q) : M Q :=
  noise <- normal 0 15 ;;
  let base_n := 70 + noise in
  ret (Py.max 0 (Py.min 100 base_n)).

Definition _estimate_phosphorus_level (features : list Q) : M Q :=
  noise <- normal 0 12 ;;
  let base_p := 65 + noise in
  ret (Py.max 0 (Py.min 100 base_p)).

Definition _estimate_potassium_level (features : list Q) : M Q :=
  noise <- normal 0 10 ;;
  let base_k := 68 + noise in
  ret (Py.max 0 (Py.min 100 base_k)).

Definition catch_all : string := "Soil conditions are within optimal ranges".

Definition _generate_soil_recommendations
    (ph organic_matter moisture nitrogen phosphorus potassium : Q)
    : list string :=
  let recommendations := [] in
  let recommendations :=
    if Qltb ph 6.0 then
      recommendations ++ ["Consider lime application to raise pH"]
    else if Qltb 7.5 ph then
      recommendations ++ ["Consider sulfur application to lower pH"]
    else recommendations in
  let recommendations :=
    if Qltb organic_matter 3.0 then
      recommendations ++
      ["Increase organic matter with compost or cover crops"]
    else recommendations in
  let recommendations :=
    if Qltb moisture 30 then
      recommendations ++ ["Implement irrigation to improve moisture levels"]
    else if Qltb 80 moisture then
      recommendations ++ ["Improve drainage to prevent waterlogging"]
    else recommendations in
  let recommendations :=
    if Qltb nitrogen 50 then recommendations ++ ["Apply nitrogen fertilizer"]
    else recommendations in
  let recommendations :=
    if Qltb phosphorus 40 then
      recommendations ++ ["Apply phosphorus fertilizer"]
    else recommendations in
  let recommendations :=
    if Qltb potassium 45 then
      recommendations ++ ["Apply potassium fertilizer"]
    else recommendations in
  match recommendations with
  | [] => [catch_all]
  | _ => recommendations
  end.

(** The estimators and the record construction that follow feature
    extraction in the [try] block. *)
Definition score (soil_features : list Q) (now : string) : M SoilResult :=
  ph_level <- _estimate_ph_level soil_features ;;
  organic_matter <- _estimate_organic_matter soil_features ;;
  moisture_content <- _estimate_moisture_content soil_features ;;
  nitrogen_level <- _estimate_nitrogen_level soil_features ;;
  phosphorus_level <- _estimate_phosphorus_level soil_features ;;
  potassium_level <- _estimate_potassium_level soil_features ;;
  let recommendations :=
    _generate_soil_recommendations
      ph_level organic_matter moisture_content
      nitrogen_level phosphorus_level potassium_level in
  ret {| ph_level := ph_level;
         organic_matter := organic_matter;
         moisture_content := moisture_content;
         nitrogen_level := nitrogen_level;
         phosphorus_level := phosphorus_level;
         potassium_level := potassium_level;
         recommendations := recommendations;
         analysis_timestamp := now |}.

Section Analyze.

Variable sqrt : Q -> Q.

Definition analyze_body (hyperspectral_data : pyobj) (now : string)
    : M SoilResult :=
  soil_features <- lift (_extract_soil_features sqrt hyperspectral_data) ;;
  score soil_features now.

Definition analyze (hyperspectral_data : pyobj) (now : string)
    : rng -> SoilResult * rng :=
  try_except (analyze_body hyperspectral_data now) (default_result now).

End Analyze.

End SoilAnalyzer.

(* ================================================================== *)
(** ** class HyperspectralProcessor (hyperspectral_processor.py) *)

Module HyperspectralProcessor.

(** [spectrum[i] = v] on a 1-D array: [IndexError] past its end. *)
Definition setitem (spectrum : list Q) (i : nat) (v : Q) : result (list Q) :=
  if (i <? List.length spectrum)%nat
  then Ok (firstn i spectrum ++ v :: skipn (S i) spectrum)
  else Raise IndexError.

(** [np.random.random()]: the next unit sample. *)
Definition random : M Q := next_sample.

(** The value one iteration of the loop stores for the wavelength [wl]. *)
Definition band_value (wl : Q) : M Q :=
  if Qltb wl 500 then
    r <- random ;; ret (0.04 + 0.02 * r)
  else if Qltb wl 600 then
    r <- random ;; ret (0.08 + 0.04 * r)
  else if Qltb wl 700 then
    r <- random ;; ret (0.04 + 0.02 * r)
  else if Qltb wl 750 then
    ret (0.1 + 0.6 * ((wl - 700) / 50))
  else
    r <- random ;; ret (0.7 + 0.2 * r).

(** [for i, wl in enumerate(wavelengths)], from index [i] on. *)
Fixpoint spectrum_loop (i : nat) (wavelengths spectrum : list Q)
    : M (list Q) :=
  match wavelengths with
  | [] => ret spectrum
  | wl :: rest =>
      v <- band_value wl ;;
      spectrum <- lift (setitem spectrum i v) ;;
      spectrum_loop (S i) rest spectrum
  end.

Definition _generate_vegetation_spectrum (wavelengths : list Q) : M (list Q) :=
  let spectrum := repeat 0 (List.length wavelengths) in
  spectrum_loop 0 wavelengths spectrum.

End HyperspectralProcessor.

(* ================================================================== *)
(** ** app.py: the upload filter and the field status *)

Module App.

Definition ALLOWED_EXTENSIONS : list string :=
  ["raw"; "hdr"; "img"; "bil"; "bip"; "bsq"; "tif"; "tiff"].

(** [c in s]. *)
Fixpoint contains (c : ascii) (s : string) : bool :=
  match s with
  | EmptyString => false
  | String c' s' => Ascii.eqb c' c || contains c s'
  end.

(** The two sides of the last occurrence of [sep] in [s], if there is
    one. *)
Fixpoint rpartition (sep : ascii) (s : string) : option (string * string) :=
  match s with
  | EmptyString => None
  | String c s' =>
      match rpartition sep s' with
      | Some (before, after) => Some (String c before, after)
      | None => if Ascii.eqb c sep then Some (EmptyString, s') else None
      end
  end.

(** [s.rsplit(sep, 1)]: at most one split, at the last separator. *)
Definition rsplit1 (sep : ascii) (s : string) : list string :=
  match rpartition sep s with
  | Some (before, after) => [before; after]
  | None => [s]
  end.

(** [s.lower()] on ASCII text. *)
Fixpoint lower (s : string) : string :=
  match s with
  | EmptyString => EmptyString
  | String c s' => String (Py.lower c) (lower s')
  end.

(** [l[i]] on a list: [IndexError] past its end. *)
Definition list_getitem {A} (l : list A) (i : nat) : result A :=
  match nth_error l i with
  | Some x => Ok x
  | None => Raise IndexError
  end.

(** [x in ALLOWED_EXTENSIONS]. *)
Definition in_set (x : string) (s : list string) : bool :=
  existsb (String.eqb x) s.

Definition allowed_file (filename : string) : result bool :=
  if contains "."%char filename then
    ext <~ list_getitem (rsplit1 "."%char filename) 1 ;;
    Ok (in_set (lower ext) ALLOWED_EXTENSIONS)
  else Ok false.

(** The field status that [process_hyperspectral_image_async] derives from
    the health record and the pest detections. *)
Definition field_status (overall_score : Q)
    (pest_results : list PestDetector.Detection) : string :=
  if Qle_bool 80 overall_score then "Excellent"
  else if Qle_bool 60 overall_score then
    if (List.length
          (filter (fun p => String.eqb (PestDetector.severity p) "High")
                  pest_results) =? 0)%nat
    then "Healthy" else "Attention Needed"
  else "Poor".



End App.

(* ================================================================== *)
(** ** Reference definitions and sample inputs *)

(** The clamp of the specification: values below the range go to its lower
    end, values above it to its upper end. *)
Definition clamp (lo hi x : Q) : Q :=
  if Qltb x lo then lo else if Qltb hi x then hi else x.

Module HealthSpec.

(** The overall score as the specification words it. *)
Definition overall_score
    (chlorophyll water_stress nutrient_deficiency disease_risk : Q) : Q :=
  clamp 0 100
    (chlorophyll * 0.4 + (100 - water_stress) * 0.25 +
     (100 - nutrient_deficiency) * 0.2 + (100 - disease_risk) * 0.15).

End HealthSpec.

(** The ranges of the six soil estimates. *)
Definition soil_bounds (r : SoilAnalyzer.SoilResult) : Prop :=
  (4.0 <= SoilAnalyzer.ph_level r /\ SoilAnalyzer.ph_level r <= 8.5) /\
  (1.0 <= SoilAnalyzer.organic_matter r /\
   SoilAnalyzer.organic_matter r <= 8.0) /\
  (0 <= SoilAnalyzer.moisture_content r /\
   SoilAnalyzer.moisture_content r <= 100) /\
  (0 <= SoilAnalyzer.nitrogen_level r /\
   SoilAnalyzer.nitrogen_level r <= 100) /\
  (0 <= SoilAnalyzer.phosphorus_level r /\
   SoilAnalyzer.phosphorus_level r <= 100) /\
  (0 <= SoilAnalyzer.potassium_level r /\
   SoilAnalyzer.potassium_level r <= 100).

(** Two health records that differ at most in their timestamp. *)
Definition same_health_outcome (r1 r2 : CropHealthAnalyzer.HealthResult)
    : Prop :=
  CropHealthAnalyzer.chlorophyll_content r1
  = CropHealthAnalyzer.chlorophyll_content r2 /\
  CropHealthAnalyzer.water_stress r1 = CropHealthAnalyzer.water_stress r2 /\
  CropHealthAnalyzer.nutrient_deficiency r1
  = CropHealthAnalyzer.nutrient_deficiency r2 /\
  CropHealthAnalyzer.disease_risk r1 = CropHealthAnalyzer.disease_risk r2 /\
  CropHealthAnalyzer.overall_score r1 = CropHealthAnalyzer.overall_score r2 /\
  CropHealthAnalyzer.health_status r1 = CropHealthAnalyzer.health_status r2 /\
  CropHealthAnalyzer.recommendations r1
  = CropHealthAnalyzer.recommendations r2.

(** Two soil records that differ at most in their timestamp. *)
Definition same_soil_outcome (r1 r2 : SoilAnalyzer.SoilResult) : Prop :=
  SoilAnalyzer.ph_level r1 = SoilAnalyzer.ph_level r2 /\
  SoilAnalyzer.organic_matter r1 = SoilAnalyzer.organic_matter r2 /\
  SoilAnalyzer.moisture_content r1 = SoilAnalyzer.moisture_content r2 /\
  SoilAnalyzer.nitrogen_level r1 = SoilAnalyzer.nitrogen_level r2 /\
  SoilAnalyzer.phosphorus_level r1 = SoilAnalyzer.phosphorus_level r2 /\
  SoilAnalyzer.potassium_level r1 = SoilAnalyzer.potassium_level r2 /\
  SoilAnalyzer.recommendations r1 = SoilAnalyzer.recommendations r2.

(** [a] does not rank below [b]. *)
Definition ge_key {A} (key : A -> Z) (a b : A) : Prop := (key b <= key a)%Z.

(** The key function [key] made total: what it returns, or 0 if it
    raises. *)
Definition total_key {A} (key : A -> result Z) (x : A) : Z :=
  match key x with Ok k => k | Raise _ => 0%Z end.

(** A computation that only moves the cursor of the generator. *)
Definition keeps_stream {A} (m : M A) : Prop :=
  forall g r g', m g = (r, g') -> samples g' = samples g.

(** The severity tier of a detection as the sort key of [detect] ranks
    it: High 3, Medium 2, Low 1. *)
Definition severity_rank (x : PestDetector.Detection) : Z :=
  total_key PestDetector.severity_key x.

(** What holds of every detection of an [h] x [w] scene: a severity with a
    confidence in its band, and a location within the scene in pixels. *)
Definition detection_in_scene (h w : nat) (x : PestDetector.Detection)
    : Prop :=
  ((PestDetector.severity x = "Low" /\
    0.6 <= PestDetector.confidence x /\ PestDetector.confidence x < 0.8) \/
   (PestDetector.severity x = "Medium" /\
    0.7 <= PestDetector.confidence x /\ PestDetector.confidence x < 0.9) \/
   (PestDetector.severity x = "High" /\
    0.8 <= PestDetector.confidence x /\ PestDetector.confidence x < 0.95)) /\
  (0 <= PestDetector.location_x x /\ PestDetector.location_x x <= of_nat w) /\
  (0 <= PestDetector.location_y x /\ PestDetector.location_y x <= of_nat h).

(** A generator reading its samples off a table, 0 past its end. *)
Definition table_rng (l : list Q) : rng :=
  {| samples := fun k => nth k l 0; cursor := 0 |}.

(** Samples that make [detect] produce, in this order, aphids of severity
    Low, a corn borer of severity High and leaf rust of severity Low. *)
Definition mixed_rng : rng :=
  table_rng [ 7 # 8;
              0; 1 # 8; 1 # 2; 1 # 4; 1 # 4; 0;
              3 # 8; 7 # 8; 1 # 2; 1 # 4; 1 # 4; 1 # 2;
              5 # 8; 1 # 4; 1 # 2; 1 # 4; 1 # 4; 0 ].

(** The generator [n] samples further down its stream. *)
Definition skip (n : nat) (g : rng) : rng :=
  {| samples := samples g; cursor := n + cursor g |}.

(** A three-decimal fixed-point square root, used to run the models on
    sample inputs. *)
Definition sqrt3 (x : Q) : Q :=
  inject_Z (Z.sqrt (Qfloor (x * 1000000))) / 1000.

(** An [h] x [w] x [b] cube whose every sample is [v]. *)
Definition uniform_cube (h w b : nat) (v : Q) : pyobj :=
  PArray {| shape := [h; w; b]; data := repeat v (h * w * b) |}.

(** A one-pixel 2-D array. *)
Definition flat_scene : pyobj :=
  PArray {| shape := [1; 1]%nat; data := [0.5] |}.

(** An index map with a single NDVI array. *)
Definition ndvi_only : list (string * index_value) :=
  [("ndvi", IArray {| shape := [1; 1]%nat; data := [0.5] |})].

(** A generator whose every sample is [v]. *)
Definition constant_rng (v : Q) : rng :=
  {| samples := fun _ => v; cursor := 0 |}.

(** A generator cycling through 0, 1/8, ..., 7/8. *)
Definition cycling_rng : rng :=
  {| samples := fun k => of_nat (k mod 8) / 8; cursor := 0 |}.

(** The message the overall-score branch of the health recommendations
    appends. *)
Definition overall_message (overall_score : Q) : string :=
  if Qltb overall_score 50 then
    "Immediate attention required - conduct field inspection"
  else if Qltb overall_score 70 then
    "Monitor closely and consider management interventions"
  else "Continue current management practices".

(** How many entries of an index dict are arrays. *)
Fixpoint count_arrays (items : list (string * index_value)) : nat :=
  match items with
  | [] => 0
  | (_, IArray _) :: rest => S (count_arrays rest)
  | (_, IScalar _) :: rest => count_arrays rest
  end.

(** The first array of an index dict, in insertion order. *)
Fixpoint first_array (items : list (string * index_value)) : option ndarray :=
  match items with
  | [] => None
  | (_, IArray a) :: _ => Some a
  | (_, IScalar _) :: rest => first_array rest
  end.

(** The plain weighted sum of the four health metrics. *)
Definition weighted_sum
    (chlorophyll water_stress nutrient_deficiency disease_risk : Q) : Q :=
  0.4 * chlorophyll + 0.25 * (100 - water_stress) +
  0.2 * (100 - nutrient_deficiency) + 0.15 * (100 - disease_risk).

(** The range of reflectances the vegetation spectrum gives a band of
    wavelength [wl]. *)
Definition in_region (wl v : Q) : Prop :=
  (wl < 500 -> 0.04 <= v /\ v <= 0.06) /\
  (500 <= wl -> wl < 600 -> 0.08 <= v /\ v <= 0.12) /\
  (600 <= wl -> wl < 700 -> 0.04 <= v /\ v <= 0.06) /\
  (700 <= wl -> wl < 750 -> v == 0.1 + 0.6 * ((wl - 700) / 50)) /\
  (750 <= wl -> 0.7 <= v /\ v <= 0.9).

(** A spectrum [a * i + b] over [n] bands. *)
Definition linear_spectrum (a b : Q) (n : nat) : list Q :=
  map (fun i => a * of_nat i + b) (seq 0 n).

(** The pest kinds as they are reported, each with its candidate
    recommendations. *)
Definition reported_catalogue : list (string * list string) :=
  [ ("Aphids",
     ["Monitor population levels";
      "Consider beneficial insects release";
      "Apply targeted insecticide if needed"]);
    ("Corn Borer",
     ["Immediate treatment recommended";
      "Apply approved insecticide";
      "Monitor neighboring plants"]);
    ("Leaf Rust",
     ["Apply fungicide treatment";
      "Remove infected plant material";
      "Improve air circulation"]);
    ("Spider Mites",
     ["Increase humidity levels";
      "Apply miticide treatment";
      "Monitor for natural predators"]) ].

(** A detection reports a catalogued kind with one of its candidates. *)
Definition catalogued (x : PestDetector.Detection) : Prop :=
  exists candidates,
    In (PestDetector.type x, candidates) reported_catalogue /\
    In (PestDetector.recommendation x) candidates.

(** Every array of an index dict holds at least one value. *)
Definition arrays_nonempty (items : list (string * index_value)) : Prop :=
  Forall (fun kv => match snd kv with
                    | IArray a => Numpy.data a <> []
                    | IScalar _ => True
                    end) items.

(** The ten bands the red-edge fit runs over: bands 60..69, or the last
    ten of a spectrum with fewer than 70 bands. *)
Definition red_edge_window (spectrum : list Q) : list Q :=
  firstn 10 (skipn (Nat.min 60 (List.length spectrum - 10)) spectrum).

(** The least-squares slope of ten values against 0, 1, ..., 9 in its
    centred form: the sum of (j - 4.5) * y_j over the sum of (j - 4.5)^2,
    which is 82.5. *)
Definition centred_slope (y : list Q) : Q :=
  dot (map (fun j => of_nat j - 4.5) (seq 0 10)) y / 82.5.

(** A detection of an [h] x [w] scene with closed bounds: a severity with
    a confidence within the closed band of that severity, and a location
    within the scene in pixels. *)
Definition detection_in_closed_scene (h w : nat)
    (x : PestDetector.Detection) : Prop :=
  ((PestDetector.severity x = "Low" /\
    0.6 <= PestDetector.confidence x /\ PestDetector.confidence x <= 0.8) \/
   (PestDetector.severity x = "Medium" /\
    0.7 <= PestDetector.confidence x /\ PestDetector.confidence x <= 0.9) \/
   (PestDetector.severity x = "High" /\
    0.8 <= PestDetector.confidence x /\ PestDetector.confidence x <= 0.95)) /\
  (0 <= PestDetector.confidence x /\ PestDetector.confidence x <= 1) /\
  (0 <= PestDetector.location_x x /\ PestDetector.location_x x <= of_nat w) /\
  (0 <= PestDetector.location_y x /\ PestDetector.location_y x <= of_nat h).

(* ================================================================== *)
(** * Properties *)

(** ** Comparisons and clamping *)

Lemma Qltb_lt (a b : Q) : Qltb a b = true <-> a < b.
Proof.
  unfold Qltb. rewrite negb_true_iff. split; intro H.
  - destruct (Qlt_le_dec a b) as [Hlt | Hle]; [exact Hlt |].
    apply Qle_bool_iff in Hle. congruence.
  - destruct (Qle_bool b a) eqn:E; [| reflexivity].
    apply Qle_bool_iff in E. exfalso. apply (Qlt_not_le _ _ H E).
Qed.

Lemma Qltb_ge (a b : Q) : Qltb a b = false <-> b <= a.
Proof.
  unfold Qltb. rewrite negb_false_iff. apply Qle_bool_iff.
Qed.

(** Case analysis on a comparison, leaving the order fact in the context. *)
Ltac case_ltb a b :=
  let E := fresh "E" in
  destruct (Qltb a b) eqn:E;
  [apply Qltb_lt in E | apply Qltb_ge in E].

(** [max(lo, min(hi, x))] lies between [lo] and [hi]. *)
Lemma max_min_bounds (lo hi x : Q) :
  lo <= hi -> lo <= Py.max lo (Py.min hi x) /\ Py.max lo (Py.min hi x) <= hi.
Proof.
  intro Hlh. unfold Py.max, Py.min.
  case_ltb x hi; [case_ltb lo x | case_ltb lo hi]; split; lra.
Qed.

Lemma max_min_is_clamp (lo hi x : Q) :
  lo <= hi -> Py.max lo (Py.min hi x) == clamp lo hi x.
Proof.
  intro Hlh. unfold Py.max, Py.min, clamp.
  case_ltb x hi.
  - case_ltb lo x; case_ltb x lo; try lra; case_ltb hi x; lra.
  - case_ltb lo hi; case_ltb x lo; try lra; case_ltb hi x; lra.
Qed.

(** ** The monad of generator computations *)

Lemma bind_ok {A B} (m : M A) (f : A -> M B) g a g' :
  m g = (Ok a, g') -> bind m f g = f a g'.
Proof. intro H. unfold bind. rewrite H. reflexivity. Qed.

Lemma bind_raise {A B} (m : M A) (f : A -> M B) g e g' :
  m g = (Raise e, g') -> bind m f g = (Raise e, g').
Proof. intro H. unfold bind. rewrite H. reflexivity. Qed.

(** A computation that went through a [bind] went through both halves. *)
Lemma bind_inv {A B} (m : M A) (f : A -> M B) g b g2 :
  bind m f g = (Ok b, g2) ->
  exists a g1, m g = (Ok a, g1) /\ f a g1 = (Ok b, g2).
Proof.
  unfold bind. destruct (m g) as [[a | e] g1]; intro H.
  - exists a, g1. split; [reflexivity | exact H].
  - discriminate.
Qed.

(** ** Overall health score *)

(** C1.  For all chlorophyll, water stress, nutrient deficiency and disease
    risk, [_calculate_overall_health_score] equals the weighted sum
    chlorophyll*0.4 + (100-water_stress)*0.25 +
    (100-nutrient_deficiency)*0.2 + (100-disease_risk)*0.15 clamped to
    [0,100]; in particular it lies in [0,100]. *)
Theorem overall_health_score_weighted_clamped
    (chlorophyll water_stress nutrient_deficiency disease_risk : Q) :
  CropHealthAnalyzer._calculate_overall_health_score
    chlorophyll water_stress nutrient_deficiency disease_risk
  == HealthSpec.overall_score
       chlorophyll water_stress nutrient_deficiency disease_risk
  /\ 0 <= CropHealthAnalyzer._calculate_overall_health_score
            chlorophyll water_stress nutrient_deficiency disease_risk
  /\ CropHealthAnalyzer._calculate_overall_health_score
       chlorophyll water_stress nutrient_deficiency disease_risk <= 100.
Proof.
  unfold CropHealthAnalyzer._calculate_overall_health_score,
    HealthSpec.overall_score.
  cbn [CropHealthAnalyzer.w_chlorophyll CropHealthAnalyzer.w_water_stress
       CropHealthAnalyzer.w_nutrient_deficiency
       CropHealthAnalyzer.w_disease_risk CropHealthAnalyzer.weights].
  split.
  - rewrite max_min_is_clamp by lra.
    unfold clamp.
    set (a := 0.4 * chlorophyll + 0.25 * (100 - water_stress) +
              0.2 * (100 - nutrient_deficiency) + 0.15 * (100 - disease_risk)).
    set (b := chlorophyll * 0.4 + (100 - water_stress) * 0.25 +
              (100 - nutrient_deficiency) * 0.2 + (100 - disease_risk) * 0.15).
    assert (Hab : a == b) by (unfold a, b; ring).
    case_ltb a 0; case_ltb b 0; try lra; case_ltb 100 a; case_ltb 100 b; lra.
  - apply max_min_bounds. lra.
Qed.

(** ** Recommendation lists *)

Lemma catch_all_guard_nonempty (l : list string) (d : string) :
  match l with [] => [d] | _ => l end <> [].
Proof. destruct l; discriminate. Qed.

Lemma health_recommendations_nonempty (c w n d o : Q) :
  CropHealthAnalyzer._generate_health_recommendations c w n d o <> [].
Proof.
  unfold CropHealthAnalyzer._generate_health_recommendations.
  apply catch_all_guard_nonempty.
Qed.

Lemma soil_recommendations_nonempty (ph om m n p k : Q) :
  SoilAnalyzer._generate_soil_recommendations ph om m n p k <> [].
Proof.
  unfold SoilAnalyzer._generate_soil_recommendations.
  apply catch_all_guard_nonempty.
Qed.

(** X5.  The overall-score branch always contributes one of its three
    messages, so the health list is non-empty before its catch-all guard is
    reached. *)
Lemma health_overall_message_present (c w n d o : Q) :
  In (last (CropHealthAnalyzer._generate_health_recommendations c w n d o) "")
     ["Immediate attention required - conduct field inspection";
      "Monitor closely and consider management interventions";
      "Continue current management practices"] /\
  ~ In CropHealthAnalyzer.catch_all
       (CropHealthAnalyzer._generate_health_recommendations c w n d o).
Proof.
  unfold CropHealthAnalyzer._generate_health_recommendations,
    CropHealthAnalyzer.catch_all.
  destruct (Qltb c 60), (Qltb 40 w), (Qltb 30 n), (Qltb 25 d),
    (Qltb o 50), (Qltb o 70);
    cbn [app last In];
    (split; [auto 6 | intro Hin; intuition discriminate]).
Qed.



(** ** What the scoring steps return *)

(** The health scoring never raises, and its record carries the list made
    by [_generate_health_recommendations]. *)
Lemma health_score_ok (features : list Q) (now : string) (g : rng) :
  exists r g',
    CropHealthAnalyzer.score features now g = (Ok r, g') /\
    CropHealthAnalyzer.recommendations r <> [].
Proof.
  unfold CropHealthAnalyzer.score.
  unfold CropHealthAnalyzer._analyze_chlorophyll_content,
    CropHealthAnalyzer._analyze_water_stress,
    CropHealthAnalyzer._analyze_nutrient_deficiency,
    CropHealthAnalyzer._analyze_disease_risk.
  destruct (0 <? List.length features)%nat;
    destruct (6 <? List.length features)%nat;
    destruct (1 <? List.length features)%nat;
    (eexists; eexists; split; [reflexivity |];
     apply health_recommendations_nonempty).
Qed.

Lemma soil_score_ok (features : list Q) (now : string) (g : rng) :
  exists r g',
    SoilAnalyzer.score features now g = (Ok r, g') /\
    soil_bounds r /\
    SoilAnalyzer.recommendations r <> [].
Proof.
  eexists; eexists. split; [reflexivity |]. split.
  - unfold soil_bounds. cbn [SoilAnalyzer.ph_level SoilAnalyzer.organic_matter
      SoilAnalyzer.moisture_content SoilAnalyzer.nitrogen_level
      SoilAnalyzer.phosphorus_level SoilAnalyzer.potassium_level].
    repeat split; apply max_min_bounds; lra.
  - apply soil_recommendations_nonempty.
Qed.

Lemma soil_default_bounds (now : string) :
  soil_bounds (SoilAnalyzer.default_result now).
Proof.
  unfold soil_bounds, SoilAnalyzer.default_result.
  cbn [SoilAnalyzer.ph_level SoilAnalyzer.organic_matter
      SoilAnalyzer.moisture_content SoilAnalyzer.nitrogen_level
      SoilAnalyzer.phosphorus_level SoilAnalyzer.potassium_level].
  repeat split; lra.
Qed.

(** The soil analysis either ran its estimators on extracted features or
    fell back to the default record. *)
Lemma soil_analyze_cases (sqrt : Q -> Q) (d : pyobj) (now : string) (g : rng) :
  (exists f g',
      SoilAnalyzer._extract_soil_features sqrt d = Ok f /\
      SoilAnalyzer.score f now g
      = (Ok (fst (SoilAnalyzer.analyze sqrt d now g)), g')) \/
  (exists e,
      SoilAnalyzer._extract_soil_features sqrt d = Raise e /\
      SoilAnalyzer.analyze sqrt d now g
      = (SoilAnalyzer.default_result now, g)).
Proof.
  unfold SoilAnalyzer.analyze, SoilAnalyzer.analyze_body, try_except, bind,
    lift.
  destruct (SoilAnalyzer._extract_soil_features sqrt d) as [f | e].
  - left. destruct (soil_score_ok f now g) as (r & g' & Hs & _).
    exists f, g'. split; [reflexivity |]. rewrite Hs. reflexivity.
  - right. exists e. split; reflexivity.
Qed.

Lemma health_analyze_cases (sqrt : Q -> Q) (d : pyobj)
    (idx : list (string * index_value)) (now : string) (g : rng) :
  (exists f g',
      CropHealthAnalyzer._extract_health_features sqrt d idx = Ok f /\
      CropHealthAnalyzer.score f now g
      = (Ok (fst (CropHealthAnalyzer.analyze sqrt d idx now g)), g')) \/
  (exists e,
      CropHealthAnalyzer._extract_health_features sqrt d idx = Raise e /\
      CropHealthAnalyzer.analyze sqrt d idx now g
      = (CropHealthAnalyzer.default_result now, g)).
Proof.
  unfold CropHealthAnalyzer.analyze, CropHealthAnalyzer.analyze_body,
    try_except, bind, lift.
  destruct (CropHealthAnalyzer._extract_health_features sqrt d idx) as [f | e].
  - left. destruct (health_score_ok f now g) as (r & g' & Hs & _).
    exists f, g'. split; [reflexivity |]. rewrite Hs. reflexivity.
  - right. exists e. split; reflexivity.
Qed.

(** C6.  For every input, the record returned by [SoilAnalyzer.analyze] has
    ph_level in [4.0, 8.5], organic_matter in [1.0, 8.0], moisture_content
    in [0, 100] and nitrogen, phosphorus and potassium levels in [0, 100]. *)
Theorem soil_analyze_within_bounds
    (sqrt : Q -> Q) (hyperspectral_data : pyobj) (now : string) (g : rng) :
  let r := fst (SoilAnalyzer.analyze sqrt hyperspectral_data now g) in
  (4.0 <= SoilAnalyzer.ph_level r /\ SoilAnalyzer.ph_level r <= 8.5) /\
  (1.0 <= SoilAnalyzer.organic_matter r /\
   SoilAnalyzer.organic_matter r <= 8.0) /\
  (0 <= SoilAnalyzer.moisture_content r /\
   SoilAnalyzer.moisture_content r <= 100) /\
  (0 <= SoilAnalyzer.nitrogen_level r /\
   SoilAnalyzer.nitrogen_level r <= 100) /\
  (0 <= SoilAnalyzer.phosphorus_level r /\
   SoilAnalyzer.phosphorus_level r <= 100) /\
  (0 <= SoilAnalyzer.potassium_level r /\
   SoilAnalyzer.potassium_level r <= 100).
Proof.
  change (soil_bounds
            (fst (SoilAnalyzer.analyze sqrt hyperspectral_data now g))).
  destruct (soil_analyze_cases sqrt hyperspectral_data now g)
    as [(f & g' & _ & Hs) | (e & _ & Hd)].
  - destruct (soil_score_ok f now g) as (r & g2 & Hr & Hb & _).
    rewrite Hr in Hs. injection Hs as Hs _. rewrite <- Hs. exact Hb.
  - rewrite Hd. apply soil_default_bounds.
Qed.




(** ** Failing closed *)

(** C2.  For every input, none of [CropHealthAnalyzer.analyze],
    [SoilAnalyzer.analyze] and [PestDetector.detect] propagates an
    exception.  When feature extraction raises, the health and soil
    analysers return their default records (health: chlorophyll 75.0, water
    stress 25.0, nutrient deficiency 15.0, disease risk 12.0, overall 78.0,
    status 'healthy'; soil: pH 6.8, organic matter 4.2, moisture 67.0,
    N 75.0, P 68.0, K 72.0); otherwise the scoring completes and they
    return its record.  When the body of [detect] raises it returns the
    empty list, otherwise the list the body made. *)
Theorem analysers_fail_closed
    (sqrt : Q -> Q) (hyperspectral_data : pyobj)
    (spectral_indices : list (string * index_value))
    (now : string) (g : rng) :
  match CropHealthAnalyzer._extract_health_features
          sqrt hyperspectral_data spectral_indices with
  | Ok features =>
      exists r g',
        CropHealthAnalyzer.score features now g = (Ok r, g') /\
        CropHealthAnalyzer.analyze
          sqrt hyperspectral_data spectral_indices now g = (r, g')
  | Raise _ =>
      CropHealthAnalyzer.analyze sqrt hyperspectral_data spectral_indices now g
      = ({| CropHealthAnalyzer.chlorophyll_content := 75.0;
            CropHealthAnalyzer.water_stress := 25.0;
            CropHealthAnalyzer.nutrient_deficiency := 15.0;
            CropHealthAnalyzer.disease_risk := 12.0;
            CropHealthAnalyzer.overall_score := 78.0;
            CropHealthAnalyzer.health_status := "healthy";
            CropHealthAnalyzer.recommendations :=
              ["Monitor field conditions";
               "Continue current management practices"];
            CropHealthAnalyzer.analysis_timestamp := now |}, g)
  end /\
  match SoilAnalyzer._extract_soil_features sqrt hyperspectral_data with
  | Ok features =>
      exists r g',
        SoilAnalyzer.score features now g = (Ok r, g') /\
        SoilAnalyzer.analyze sqrt hyperspectral_data now g = (r, g')
  | Raise _ =>
      SoilAnalyzer.analyze sqrt hyperspectral_data now g
      = ({| SoilAnalyzer.ph_level := 6.8;
            SoilAnalyzer.organic_matter := 4.2;
            SoilAnalyzer.moisture_content := 67.0;
            SoilAnalyzer.nitrogen_level := 75.0;
            SoilAnalyzer.phosphorus_level := 68.0;
            SoilAnalyzer.potassium_level := 72.0;
            SoilAnalyzer.recommendations :=
              ["Monitor soil conditions regularly"];
            SoilAnalyzer.analysis_timestamp := now |}, g)
  end /\
  match PestDetector.detect_body hyperspectral_data g with
  | (Ok l, g') => PestDetector.detect hyperspectral_data g = (l, g')
  | (Raise _, g') => PestDetector.detect hyperspectral_data g = ([], g')
  end.
Proof.
  split; [| split].
  - unfold CropHealthAnalyzer.analyze, CropHealthAnalyzer.analyze_body,
      try_except, bind, lift.
    destruct (CropHealthAnalyzer._extract_health_features
                sqrt hyperspectral_data spectral_indices) as [f | e];
      [| reflexivity].
    destruct (health_score_ok f now g) as (r & g' & Hs & _).
    exists r, g'. rewrite Hs. split; reflexivity.
  - unfold SoilAnalyzer.analyze, SoilAnalyzer.analyze_body,
      try_except, bind, lift.
    destruct (SoilAnalyzer._extract_soil_features sqrt hyperspectral_data)
      as [f | e]; [| reflexivity].
    destruct (soil_score_ok f now g) as (r & g' & Hs & _).
    exists r, g'. rewrite Hs. split; reflexivity.
  - unfold PestDetector.detect, try_except.
    destruct (PestDetector.detect_body hyperspectral_data g) as [[l | e] g'];
      reflexivity.
Qed.

(** An object without [shape] makes every [try] block raise, so the three
    defaults come back. *)
Lemma object_input_gives_defaults
    (sqrt : Q -> Q) (now : string) (g : rng) :
  CropHealthAnalyzer.analyze sqrt PObject [] now g
  = (CropHealthAnalyzer.default_result now, g) /\
  SoilAnalyzer.analyze sqrt PObject now g
  = (SoilAnalyzer.default_result now, g) /\
  PestDetector.detect PObject g = ([], g).
Proof. repeat split. Qed.

(** ** An empty feature vector *)



(** The empty feature vector does arise: an array that is not 3-D together
    with an index map holding no array. *)
Lemma flat_scene_has_no_features (sqrt : Q -> Q) :
  CropHealthAnalyzer._extract_health_features sqrt flat_scene [] = Ok [].
Proof. reflexivity. Qed.

(** ** Dependence on the generator *)

Lemma upcoming_shift (g : rng) (k : nat) :
  upcoming g k = samples g (k + cursor g).
Proof. unfold upcoming. rewrite Nat.add_comm. reflexivity. Qed.

(** The first six samples of two generators, in the form in which the
    scoring steps read them. *)
Ltac first_samples H :=
  let n := fresh "S" in
  pose proof (H 0%nat ltac:(lia)) as n; rewrite !upcoming_shift in n;
  cbn [Nat.add] in n;
  let n := fresh "S" in
  pose proof (H 1%nat ltac:(lia)) as n; rewrite !upcoming_shift in n;
  cbn [Nat.add] in n;
  let n := fresh "S" in
  pose proof (H 2%nat ltac:(lia)) as n; rewrite !upcoming_shift in n;
  cbn [Nat.add] in n;
  let n := fresh "S" in
  pose proof (H 3%nat ltac:(lia)) as n; rewrite !upcoming_shift in n;
  cbn [Nat.add] in n;
  let n := fresh "S" in
  pose proof (H 4%nat ltac:(lia)) as n; rewrite !upcoming_shift in n;
  cbn [Nat.add] in n;
  let n := fresh "S" in
  pose proof (H 5%nat ltac:(lia)) as n; rewrite !upcoming_shift in n;
  cbn [Nat.add] in n.

Lemma health_score_same_samples
    (features : list Q) (now1 now2 : string) (g1 g2 : rng) :
  (forall k, (k < 6)%nat -> upcoming g1 k = upcoming g2 k) ->
  exists r1 r2 g1' g2',
    CropHealthAnalyzer.score features now1 g1 = (Ok r1, g1') /\
    CropHealthAnalyzer.score features now2 g2 = (Ok r2, g2') /\
    same_health_outcome r1 r2.
Proof.
  intro H. first_samples H.
  unfold CropHealthAnalyzer.score.
  unfold CropHealthAnalyzer._analyze_chlorophyll_content,
    CropHealthAnalyzer._analyze_water_stress,
    CropHealthAnalyzer._analyze_nutrient_deficiency,
    CropHealthAnalyzer._analyze_disease_risk.
  destruct (0 <? List.length features)%nat;
    destruct (6 <? List.length features)%nat;
    destruct (1 <? List.length features)%nat;
    (do 4 eexists; split; [reflexivity |]; split; [reflexivity |];
     unfold same_health_outcome;
     cbn [CropHealthAnalyzer.chlorophyll_content
          CropHealthAnalyzer.water_stress
          CropHealthAnalyzer.nutrient_deficiency
          CropHealthAnalyzer.disease_risk CropHealthAnalyzer.overall_score
          CropHealthAnalyzer.health_status CropHealthAnalyzer.recommendations
          samples cursor];
     rewrite ?S, ?S0, ?S1, ?S2; repeat split; reflexivity).
Qed.

Lemma soil_score_same_samples
    (features : list Q) (now1 now2 : string) (g1 g2 : rng) :
  (forall k, (k < 6)%nat -> upcoming g1 k = upcoming g2 k) ->
  exists r1 r2 g1' g2',
    SoilAnalyzer.score features now1 g1 = (Ok r1, g1') /\
    SoilAnalyzer.score features now2 g2 = (Ok r2, g2') /\
    same_soil_outcome r1 r2.
Proof.
  intro H. first_samples H.
  do 4 eexists. split; [reflexivity |]. split; [reflexivity |].
  unfold same_soil_outcome.
  cbn [SoilAnalyzer.ph_level SoilAnalyzer.organic_matter
       SoilAnalyzer.moisture_content SoilAnalyzer.nitrogen_level
       SoilAnalyzer.phosphorus_level SoilAnalyzer.potassium_level
       SoilAnalyzer.recommendations samples cursor].
  rewrite S, S0, S1, S2, S3, S4. repeat split; reflexivity.
Qed.

(** C3, as the code has it.  Each scoring model is a function of its
    features and of the pseudo-random samples it draws: two calls of
    [CropHealthAnalyzer.analyze] (and of [SoilAnalyzer.analyze]) on
    identical hyperspectral data and identical spectral indices, made with
    generators that hand out the same next six samples, return identical
    metric scores, status and recommendations. *)
Theorem same_samples_same_outcome
    (sqrt : Q -> Q) (hyperspectral_data : pyobj)
    (spectral_indices : list (string * index_value))
    (now1 now2 : string) (g1 g2 : rng)
    (Hsamples : forall k, (k < 6)%nat -> upcoming g1 k = upcoming g2 k) :
  same_health_outcome
    (fst (CropHealthAnalyzer.analyze
            sqrt hyperspectral_data spectral_indices now1 g1))
    (fst (CropHealthAnalyzer.analyze
            sqrt hyperspectral_data spectral_indices now2 g2)) /\
  same_soil_outcome
    (fst (SoilAnalyzer.analyze sqrt hyperspectral_data now1 g1))
    (fst (SoilAnalyzer.analyze sqrt hyperspectral_data now2 g2)).
Proof.
  split.
  - unfold CropHealthAnalyzer.analyze, CropHealthAnalyzer.analyze_body,
      try_except, bind, lift.
    destruct (CropHealthAnalyzer._extract_health_features
                sqrt hyperspectral_data spectral_indices) as [f | e].
    + destruct (health_score_same_samples f now1 now2 g1 g2 Hsamples)
        as (r1 & r2 & g1' & g2' & E1 & E2 & Hsame).
      rewrite E1, E2. exact Hsame.
    + repeat split.
  - unfold SoilAnalyzer.analyze, SoilAnalyzer.analyze_body,
      try_except, bind, lift.
    destruct (SoilAnalyzer._extract_soil_features sqrt hyperspectral_data)
      as [f | e].
    + destruct (soil_score_same_samples f now1 now2 g1 g2 Hsamples)
        as (r1 & r2 & g1' & g2' & E1 & E2 & Hsame).
      rewrite E1, E2. exact Hsame.
    + repeat split.
Qed.

(** Two generators at different positions of different streams that agree
    on their next six samples. *)
Lemma same_samples_same_outcome_witness :
  same_health_outcome
    (fst (CropHealthAnalyzer.analyze sqrt3 flat_scene ndvi_only "a"
            cycling_rng))
    (fst (CropHealthAnalyzer.analyze sqrt3 flat_scene ndvi_only "b"
            {| samples := fun k => of_nat ((k + 2) mod 8) / 8;
               cursor := 6 |})) /\
  same_soil_outcome
    (fst (SoilAnalyzer.analyze sqrt3 flat_scene "a" cycling_rng))
    (fst (SoilAnalyzer.analyze sqrt3 flat_scene "b"
            {| samples := fun k => of_nat ((k + 2) mod 8) / 8;
               cursor := 6 |})).
Proof.
  apply (same_samples_same_outcome sqrt3 flat_scene ndvi_only "a" "b").
  intros k Hk. unfold upcoming, cycling_rng. cbn [samples cursor].
  do 6 (destruct k as [| k]; [reflexivity |]). lia.
Defined.

(** C3, as stated, fails: two successive calls on the same data and the
    same indices, the second starting from the generator state the first
    one left, return different chlorophyll contents and different pH
    levels. *)
Lemma successive_calls_differ :
  ~ CropHealthAnalyzer.chlorophyll_content
      (fst (CropHealthAnalyzer.analyze sqrt3 flat_scene ndvi_only ""
              cycling_rng))
    == CropHealthAnalyzer.chlorophyll_content
         (fst (CropHealthAnalyzer.analyze sqrt3 flat_scene ndvi_only ""
                 (snd (CropHealthAnalyzer.analyze sqrt3 flat_scene ndvi_only
                         "" cycling_rng)))) /\
  ~ SoilAnalyzer.ph_level
      (fst (SoilAnalyzer.analyze sqrt3 flat_scene "" cycling_rng))
    == SoilAnalyzer.ph_level
         (fst (SoilAnalyzer.analyze sqrt3 flat_scene ""
                 (snd (SoilAnalyzer.analyze sqrt3 flat_scene ""
                         cycling_rng)))).
Proof. split; vm_compute; discriminate. Qed.

(** ** Band ranges of the spectral-curve features *)

Lemma mean_axis01_length (a : ndarray) (h w b : nat) :
  shape a = [h; w; b] -> List.length (mean_axis01 a) = b.
Proof.
  intro Hs. unfold mean_axis01. rewrite Hs.
  rewrite length_map, length_seq. reflexivity.
Qed.

(** [l[150:]] is empty once [l] has at most 150 elements. *)
Lemma slice_from_150_empty {A} (l : list A) :
  (List.length l <= 150)%nat -> slice (Some 150%Z) None l = [].
Proof.
  intro Hl. unfold slice, slice_index.
  change (150 <? 0)%Z with false. cbv iota.
  replace (Nat.min (Z.to_nat 150) (List.length l)) with (List.length l)
    by (change (Z.to_nat 150) with 150%nat; lia).
  rewrite Nat.sub_diag. reflexivity.
Qed.

(** The NIR peak is taken over the fixed range [150:], so on any 3-D cube
    with at most 150 bands, the 120-band grid of 400-1000nm at 5nm
    included, feature extraction raises. *)
Lemma few_bands_extraction_raises
    (sqrt : Q -> Q) (a : ndarray) (idx : list (string * index_value))
    (h w b : nat) :
  shape a = [h; w; b] -> (b <= 150)%nat ->
  is_ok (CropHealthAnalyzer._extract_health_features sqrt (PArray a) idx)
  = false.
Proof.
  intros Hs Hb. unfold CropHealthAnalyzer._extract_health_features.
  destruct (CropHealthAnalyzer.index_loop sqrt [] idx) as [f | e];
    [| reflexivity].
  cbn [rbind shape_of]. rewrite Hs. cbn [List.length Nat.eqb].
  destruct (CropHealthAnalyzer._calculate_red_edge_slope (mean_axis01 a));
    [| reflexivity].
  cbn [rbind].
  destruct (amax (slice None (Some 50%Z) (mean_axis01 a))); [| reflexivity].
  cbn [rbind].
  destruct (amax (slice (Some 50%Z) (Some 100%Z) (mean_axis01 a)));
    [| reflexivity].
  cbn [rbind].
  destruct (amin (slice (Some 100%Z) (Some 150%Z) (mean_axis01 a)));
    [| reflexivity].
  cbn [rbind].
  rewrite slice_from_150_empty
    by (rewrite (mean_axis01_length a h w b Hs); exact Hb).
  reflexivity.
Qed.

(** X11.  The health analysis of a 3-D cube with at most 150 bands is the
    default record, whatever the cube and the index dict hold. *)
Lemma few_bands_analysis_is_default
    (sqrt : Q -> Q) (a : ndarray) (idx : list (string * index_value))
    (h w b : nat) (now : string) (g : rng) :
  shape a = [h; w; b] -> (b <= 150)%nat ->
  CropHealthAnalyzer.analyze sqrt (PArray a) idx now g
  = (CropHealthAnalyzer.default_result now, g).
Proof.
  intros Hs Hb.
  pose proof (few_bands_extraction_raises sqrt a idx h w b Hs Hb) as Hr.
  unfold CropHealthAnalyzer.analyze, CropHealthAnalyzer.analyze_body,
    try_except, bind, lift.
  destruct (CropHealthAnalyzer._extract_health_features sqrt (PArray a) idx);
    [discriminate | reflexivity].
Qed.

(** C5, on the code.  On a 100-band cube the red-edge slope is fitted over
    the fixed bands 60..69 and the regional features are taken over the
    fixed ranges [:50], [50:100], [100:150] and [150:]; the last two are
    empty, the reduction over an empty range raises [ValueError], and
    [analyze] answers with the default record. *)
Theorem short_spectrum_extraction_raises
    (sqrt : Q -> Q) (now : string) (g : rng) :
  slice (Some (Z.min 60 (100 - 10))) (Some (Z.min 70 100)) (seq 0 100)
  = seq 60 10 /\
  slice (Some 150%Z) None (seq 0 100) = [] /\
  CropHealthAnalyzer._extract_health_features
    sqrt (uniform_cube 1 1 100 0.5) [] = Raise ValueError /\
  CropHealthAnalyzer.analyze sqrt (uniform_cube 1 1 100 0.5) [] now g
  = (CropHealthAnalyzer.default_result now, g).
Proof.
  split; [reflexivity |]. split; [reflexivity |].
  assert (E : CropHealthAnalyzer._extract_health_features
                sqrt (uniform_cube 1 1 100 0.5) [] = Raise ValueError)
    by (vm_compute; reflexivity).
  split; [exact E |].
  unfold CropHealthAnalyzer.analyze, CropHealthAnalyzer.analyze_body,
    try_except, bind, lift.
  rewrite E. reflexivity.
Qed.

(** ** Pest detections *)

(** C4, on the code.  On a 2 x 2 cube, with every unit sample equal to
    0.75, [detect] returns three detections of severity Medium and
    confidence 0.85, each located at (1.5, 1.5): the location is drawn in
    pixel units, [uniform(0, width)] and [uniform(0, height)], and is not
    normalised to [0,1]. *)
Theorem detection_location_in_pixel_units :
  let out := fst (PestDetector.detect (uniform_cube 2 2 1 0.5)
                    (constant_rng 0.75)) in
  List.length out = 3%nat /\
  Forall (fun x =>
            PestDetector.severity x = "Medium" /\
            PestDetector.confidence x == 0.85 /\
            PestDetector.location_x x == 1.5 /\
            PestDetector.location_y x == 1.5 /\
            1 < PestDetector.location_x x /\
            1 < PestDetector.location_y x) out.
Proof.
  vm_compute. split; [reflexivity |].
  repeat constructor; discriminate.
Qed.

(** ** The stable descending sort *)

Section SortDesc.

Context {A : Type} (key : A -> Z).

Lemma insert_desc_perm (x : A) (l : list A) :
  Permutation (insert_desc key x l) (x :: l).
Proof.
  induction l as [| y l IH]; cbn [insert_desc].
  - apply Permutation_refl.
  - destruct (key x <? key y)%Z.
    + apply perm_trans with (y :: x :: l).
      * apply perm_skip. exact IH.
      * apply perm_swap.
    + apply Permutation_refl.
Qed.

Lemma sort_desc_perm (l : list A) : Permutation (sort_desc key l) l.
Proof.
  induction l as [| x l IH]; cbn [sort_desc].
  - apply perm_nil.
  - apply perm_trans with (x :: sort_desc key l).
    + apply insert_desc_perm.
    + apply perm_skip. exact IH.
Qed.

Lemma sort_desc_length (l : list A) :
  List.length (sort_desc key l) = List.length l.
Proof. apply Permutation_length, sort_desc_perm. Qed.

Lemma insert_desc_hd (x a : A) (l : list A) :
  ge_key key a x -> HdRel (ge_key key) a l -> HdRel (ge_key key) a (insert_desc key x l).
Proof.
  intros Hax Hal. destruct l as [| y l]; cbn [insert_desc].
  - constructor. exact Hax.
  - destruct (key x <? key y)%Z.
    + constructor. inversion Hal; assumption.
    + constructor. exact Hax.
Qed.

Lemma insert_desc_sorted (x : A) (l : list A) :
  Sorted (ge_key key) l -> Sorted (ge_key key) (insert_desc key x l).
Proof.
  induction l as [| y l IH]; intro Hs; cbn [insert_desc].
  - repeat constructor.
  - destruct (key x <? key y)%Z eqn:E.
    + inversion Hs as [| ? ? Hs' Hhd]; subst.
      constructor.
      * apply IH. exact Hs'.
      * apply insert_desc_hd; [| exact Hhd].
        unfold ge_key. apply Z.ltb_lt in E. lia.
    + constructor; [exact Hs |].
      constructor. unfold ge_key. apply Z.ltb_ge in E. exact E.
Qed.

Lemma sort_desc_sorted (l : list A) :
  StronglySorted (fun a b => (key b <= key a)%Z) (sort_desc key l).
Proof.
  change (StronglySorted (ge_key key) (sort_desc key l)).
  apply Sorted_StronglySorted.
  - intros a b c Hab Hbc. unfold ge_key in *. lia.
  - induction l as [| x l IH]; cbn [sort_desc].
    + constructor.
    + apply insert_desc_sorted. exact IH.
Qed.

(** Stability: a class of elements that all carry the same key comes out
    in the order in which it went in. *)
Lemma insert_desc_filter (p : A -> bool) (x : A) (l : list A) :
  (forall a b, p a = true -> p b = true -> key a = key b) ->
  filter p (insert_desc key x l) = filter p (x :: l).
Proof.
  intro Hp. induction l as [| y l IH]; cbn [insert_desc].
  - reflexivity.
  - destruct (key x <? key y)%Z eqn:E; [| reflexivity].
    cbn [filter] in *. rewrite IH.
    destruct (p x) eqn:Px, (p y) eqn:Py; try reflexivity.
    apply Z.ltb_lt in E. rewrite (Hp x y Px Py) in E. lia.
Qed.

Lemma sort_desc_filter (p : A -> bool) (l : list A) :
  (forall a b, p a = true -> p b = true -> key a = key b) ->
  filter p (sort_desc key l) = filter p l.
Proof.
  intro Hp. induction l as [| x l IH]; cbn [sort_desc].
  - reflexivity.
  - rewrite (insert_desc_filter p x _ Hp). cbn [filter]. rewrite IH.
    reflexivity.
Qed.

End SortDesc.

(** Sorting decorated elements by their decoration is sorting the elements
    by the decorating function. *)
Lemma sort_desc_decorated {A} (kf : A -> Z) (l : list A) :
  map snd (sort_desc fst (map (fun x => (kf x, x)) l)) = sort_desc kf l.
Proof.
  assert (Hins : forall x l',
             insert_desc fst (kf x, x) (map (fun y => (kf y, y)) l')
             = map (fun y => (kf y, y)) (insert_desc kf x l')).
  { intros x l'. induction l' as [| y l' IH]; cbn [insert_desc map fst].
    - reflexivity.
    - destruct (kf x <? kf y)%Z; cbn [map]; [rewrite IH |]; reflexivity. }
  assert (Hsort : sort_desc fst (map (fun x => (kf x, x)) l)
                  = map (fun x => (kf x, x)) (sort_desc kf l)).
  { induction l as [| x l IH]; cbn [sort_desc map].
    - reflexivity.
    - rewrite IH. apply Hins. }
  rewrite Hsort, map_map. cbn [snd]. apply map_id.
Qed.

(** When [l.sort(key=key, reverse=True)] completes, the list is the stable
    descending arrangement by [key], and no key raised. *)
Lemma sort_by_key_reverse_ok {A} (key : A -> result Z) (l out : list A) :
  sort_by_key_reverse key l = Ok out ->
  out = sort_desc (total_key key) l /\
  Forall (fun x => is_ok (key x) = true) l.
Proof.
  unfold sort_by_key_reverse. intro H.
  destruct (map_result (fun x => k <~ key x ;; Ok (k, x)) l) as [dl | e] eqn:E;
    [| discriminate].
  cbn [rbind] in H. injection H as H. subst out.
  assert (Hdl : dl = map (fun x => (total_key key x, x)) l /\
                Forall (fun x => is_ok (key x) = true) l).
  { clear - E. revert dl E.
    induction l as [| x l IH]; intros dl E; cbn [map_result] in E.
    - injection E as E. subst dl. split; [reflexivity | constructor].
    - destruct (key x) as [k | e] eqn:Kx; cbn [rbind] in E; [| discriminate].
      destruct (map_result (fun x => k <~ key x ;; Ok (k, x)) l) as [dl' | e];
        cbn [rbind] in E; [| discriminate].
      injection E as E. subst dl.
      destruct (IH dl' eq_refl) as [IH1 IH2]. split.
      + cbn [map]. unfold total_key at 1. rewrite Kx, IH1. reflexivity.
      + constructor; [rewrite Kx; reflexivity | exact IH2]. }
  destruct Hdl as [Hdl Hok]. split; [| exact Hok].
  rewrite Hdl. apply (sort_desc_decorated (total_key key) l).
Qed.

(** The sort completes when no key raises. *)
Lemma sort_by_key_reverse_complete {A} (key : A -> result Z) (l : list A) :
  Forall (fun x => is_ok (key x) = true) l ->
  sort_by_key_reverse key l = Ok (sort_desc (total_key key) l).
Proof.
  intro Hok. unfold sort_by_key_reverse.
  assert (E : map_result (fun x => k <~ key x ;; Ok (k, x)) l
              = Ok (map (fun x => (total_key key x, x)) l)).
  { induction Hok as [| x l Hx Hl IH]; cbn [map_result map].
    - reflexivity.
    - destruct (key x) as [k | e] eqn:Kx; [| discriminate].
      assert (Hk : total_key key x = k)
        by (unfold total_key; rewrite Kx; reflexivity).
      cbn [rbind]. rewrite IH, Hk. reflexivity. }
  rewrite E. cbn [rbind]. rewrite sort_desc_decorated. reflexivity.
Qed.

(** ** Draws from the generator *)

Lemma keeps_ret {A} (a : A) : keeps_stream (ret a).
Proof. intros g r g' H. injection H as _ H. subst g'. reflexivity. Qed.

Lemma keeps_raise {A} (e : exn) : keeps_stream (@raise A e).
Proof. intros g r g' H. injection H as _ H. subst g'. reflexivity. Qed.

Lemma keeps_lift {A} (r : result A) : keeps_stream (lift r).
Proof. intros g r' g' H. injection H as _ H. subst g'. reflexivity. Qed.

Lemma keeps_next_sample : keeps_stream next_sample.
Proof. intros g r g' H. injection H as _ H. subst g'. reflexivity. Qed.

Lemma keeps_bind {A B} (m : M A) (f : A -> M B) :
  keeps_stream m -> (forall a, keeps_stream (f a)) -> keeps_stream (bind m f).
Proof.
  intros Hm Hf g r g' H. unfold bind in H.
  destruct (m g) as [[a | e] g1] eqn:E.
  - rewrite (Hf a g1 r g' H). apply (Hm g _ g1 E).
  - injection H as _ H. subst g'. apply (Hm g _ g1 E).
Qed.


Ltac keeps :=
  repeat first
    [ apply keeps_ret | apply keeps_raise | apply keeps_lift
    | apply keeps_next_sample
    | apply keeps_bind; [| intro] ].

Lemma keeps_uniform (lo hi : Q) : keeps_stream (uniform lo hi).
Proof. unfold uniform. keeps. Qed.

Lemma keeps_randint (lo hi : Z) : keeps_stream (randint lo hi).
Proof. unfold randint. keeps. Qed.

Lemma keeps_choice {A} (a : list A) : keeps_stream (choice a).
Proof.
  unfold choice. destruct a as [| x a]; [apply keeps_raise |].
  apply keeps_bind; [apply keeps_randint |]. intro i.
  destruct (i <? 0)%Z; [apply keeps_raise |].
  destruct (nth_error (x :: a) (Z.to_nat i)); keeps.
Qed.

Lemma keeps_choice_p {A} (a : list A) (p : list Q) :
  keeps_stream (choice_p a p).
Proof.
  unfold choice_p. apply keeps_bind; [apply keeps_next_sample |]. intro u.
  destruct (nth_error a _); keeps.
Qed.

Lemma keeps_create (pest_type : string) (h w : nat) :
  keeps_stream (PestDetector._create_pest_detection pest_type h w).
Proof.
  unfold PestDetector._create_pest_detection.
  apply keeps_bind; [apply keeps_choice_p |]. intro s.
  apply keeps_bind; [apply keeps_lift |]. intro c.
  apply keeps_bind; [apply keeps_uniform |]. intro c'.
  apply keeps_bind; [apply keeps_uniform |]. intro x.
  apply keeps_bind; [apply keeps_uniform |]. intro y.
  apply keeps_bind; [apply keeps_choice |]. intro r.
  apply keeps_ret.
Qed.

Lemma unit_samples_moved (g g' : rng) :
  samples g' = samples g -> unit_samples g -> unit_samples g'.
Proof. intros E H k. rewrite E. apply H. Qed.

Lemma next_sample_inv (g : rng) (x : Q) (g' : rng) :
  next_sample g = (Ok x, g') -> x = samples g (cursor g).
Proof. intro H. injection H as H _. symmetry. exact H. Qed.

(** A uniform draw lies between its bounds, and below the upper one when
    the interval is not empty. *)
Lemma uniform_range (lo hi : Q) (g : rng) (x : Q) (g' : rng) :
  unit_samples g -> lo <= hi -> uniform lo hi g = (Ok x, g') ->
  lo <= x /\ x <= hi /\ (lo < hi -> x < hi).
Proof.
  intros Hu Hlh H. unfold uniform in H.
  apply bind_inv in H as (u & g1 & Hs & Hr).
  apply next_sample_inv in Hs. injection Hr as Hx _. subst x.
  destruct (Hu (cursor g)) as [H0 H1]. rewrite <- Hs in H0, H1.
  assert (Ha : 0 <= (hi - lo) * u) by (apply Qmult_le_0_compat; lra).
  assert (Hb : 0 <= (hi - lo) * (1 - u)) by (apply Qmult_le_0_compat; lra).
  split; [lra | split; [lra |]].
  intro Hlt.
  assert (Hc : 0 < (hi - lo) * (1 - u)) by (apply Qmult_lt_0_compat; lra).
  lra.
Qed.

(** An integer draw lies in [[lo, hi)]. *)
Lemma randint_range (lo hi : Z) (g : rng) (z : Z) (g' : rng) :
  unit_samples g -> (lo < hi)%Z -> randint lo hi g = (Ok z, g') ->
  (lo <= z < hi)%Z.
Proof.
  intros Hu Hlh H. unfold randint in H.
  apply bind_inv in H as (u & g1 & Hs & Hr).
  apply next_sample_inv in Hs. injection Hr as Hz _. subst z.
  destruct (Hu (cursor g)) as [H0 H1]. rewrite <- Hs in H0, H1.
  set (n := (hi - lo)%Z) in *.
  assert (Hn : 0 < inject_Z n)
    by (change 0 with (inject_Z 0); rewrite <- Zlt_Qlt; unfold n; lia).
  assert (Hlow : (0 <= Qfloor (inject_Z n * u))%Z).
  { change 0%Z with (Qfloor 0). apply Qfloor_resp_le.
    apply Qmult_le_0_compat; lra. }
  assert (Hup : (Qfloor (inject_Z n * u) < n)%Z).
  { rewrite Zlt_Qlt. apply Qle_lt_trans with (inject_Z n * u).
    - apply Qfloor_le.
    - assert (Hc : 0 < inject_Z n * (1 - u))
        by (apply Qmult_lt_0_compat; lra).
      lra. }
  unfold n in *.
  change ((hi - lo) * Qnum u / QDen u)%Z
    with (Qfloor (inject_Z (hi - lo) * u)).
  lia.
Qed.

Lemma choice_in {A} (a : list A) (g : rng) (x : A) (g' : rng) :
  choice a g = (Ok x, g') -> In x a.
Proof.
  unfold choice. destruct a as [| y a]; [discriminate |]. intro H.
  apply bind_inv in H as (i & g1 & _ & Hr).
  destruct (i <? 0)%Z; [discriminate |].
  destruct (nth_error (y :: a) (Z.to_nat i)) as [x' |] eqn:E;
    [| discriminate].
  injection Hr as Hx _. subst x'. apply (nth_error_In _ _ E).
Qed.

Lemma choice_p_in {A} (a : list A) (p : list Q) (g : rng) (x : A) (g' : rng) :
  choice_p a p g = (Ok x, g') -> In x a.
Proof.
  unfold choice_p. intro H.
  apply bind_inv in H as (u & g1 & _ & Hr).
  destruct (nth_error a _) as [x' |] eqn:E; [| discriminate].
  injection Hr as Hx _. subst x'. apply (nth_error_In _ _ E).
Qed.

(** ** One detection *)

Lemma lift_inv {A} (r : result A) (g : rng) (a : A) (g' : rng) :
  lift r g = (Ok a, g') -> r = Ok a /\ g' = g.
Proof. intro H. injection H as H1 H2. split; [exact H1 | symmetry; exact H2]. Qed.

(** The draws behind a detection that [_create_pest_detection] returned. *)
Lemma create_inv (pest_type : string) (h w : nat)
    (g : rng) (x : PestDetector.Detection) (g' : rng) :
  PestDetector._create_pest_detection pest_type h w g = (Ok x, g') ->
  exists lo hi g1 g2 g3 g4,
    In (PestDetector.severity x) PestDetector.severities /\
    getitem PestDetector.confidence_ranges (PestDetector.severity x)
    = Ok (lo, hi) /\
    samples g1 = samples g /\
    uniform lo hi g1 = (Ok (PestDetector.confidence x), g2) /\
    uniform 0 (of_nat w) g2 = (Ok (PestDetector.location_x x), g3) /\
    uniform 0 (of_nat h) g3 = (Ok (PestDetector.location_y x), g4).
Proof.
  unfold PestDetector._create_pest_detection. intro H.
  apply bind_inv in H as (sev & g1 & Hsev & H).
  apply bind_inv in H as ([lo hi] & g1' & Hrange & H).
  apply lift_inv in Hrange as [Hrange ->].
  apply bind_inv in H as (c & g2 & Hc & H).
  apply bind_inv in H as (lx & g3 & Hx & H).
  apply bind_inv in H as (ly & g4 & Hy & H).
  apply bind_inv in H as (r & g5 & _ & H).
  injection H as H _. subst x.
  cbn [PestDetector.severity PestDetector.confidence
       PestDetector.location_x PestDetector.location_y].
  exists lo, hi, g1, g2, g3, g4.
  repeat split; try assumption.
  - apply (choice_p_in _ _ _ _ _ Hsev).
  - apply (keeps_choice_p _ _ _ _ _ Hsev).
Qed.

Lemma create_severity (pest_type : string) (h w : nat)
    (g : rng) (x : PestDetector.Detection) (g' : rng) :
  PestDetector._create_pest_detection pest_type h w g = (Ok x, g') ->
  In (PestDetector.severity x) PestDetector.severities.
Proof.
  intro H. apply create_inv in H as (lo & hi & g1 & g2 & g3 & g4 & Hin & _).
  exact Hin.
Qed.

Lemma of_nat_nonneg (n : nat) : 0 <= of_nat n.
Proof.
  unfold of_nat. change 0 with (inject_Z 0). rewrite <- Zle_Qle. lia.
Qed.

(** Under the generator's contract a detection has a confidence in the
    band of its severity and a location inside the scene. *)
Lemma create_in_scene (pest_type : string) (h w : nat)
    (g : rng) (x : PestDetector.Detection) (g' : rng) :
  unit_samples g ->
  PestDetector._create_pest_detection pest_type h w g = (Ok x, g') ->
  detection_in_scene h w x.
Proof.
  intros Hu H.
  apply create_inv in H
    as (lo & hi & g1 & g2 & g3 & g4 & Hin & Hrange & Hs1 & Hc & Hx & Hy).
  assert (Hu1 : unit_samples g1) by (apply (unit_samples_moved g); assumption).
  assert (Hu2 : unit_samples g2).
  { apply (unit_samples_moved g1); [| exact Hu1].
    apply (keeps_uniform _ _ _ _ _ Hc). }
  assert (Hu3 : unit_samples g3).
  { apply (unit_samples_moved g2); [| exact Hu2].
    apply (keeps_uniform _ _ _ _ _ Hx). }
  pose proof (uniform_range _ _ _ _ _ Hu2 (of_nat_nonneg w) Hx)
    as (Hx0 & Hx1 & _).
  pose proof (uniform_range _ _ _ _ _ Hu3 (of_nat_nonneg h) Hy)
    as (Hy0 & Hy1 & _).
  unfold detection_in_scene.
  split; [| split; split; assumption].
  destruct Hin as [E | [E | [E | []]]]; rewrite <- E in Hrange |- *;
    cbn in Hrange; injection Hrange as <- <-;
    [ pose proof (uniform_range 0.6 0.8 _ _ _ Hu1 ltac:(lra) Hc)
        as (Hc0 & _ & Hc1)
    | pose proof (uniform_range 0.7 0.9 _ _ _ Hu1 ltac:(lra) Hc)
        as (Hc0 & _ & Hc1)
    | pose proof (uniform_range 0.8 0.95 _ _ _ Hu1 ltac:(lra) Hc)
        as (Hc0 & _ & Hc1) ];
    specialize (Hc1 ltac:(lra));
    [ left | right; left | right; right ];
    (split; [reflexivity | split; assumption]).
Qed.

(** ** The detection loop *)

(** An invariant [I] of the generator and a property [P] of single
    detections carry through the loop, which appends exactly [n]
    detections when it completes. *)
Lemma detection_loop_invariant
    (I : rng -> Prop) (P : PestDetector.Detection -> Prop) (h w : nat) :
  (forall g r g', I g -> choice (keys PestDetector.pest_database) g = (r, g') ->
                  I g') ->
  (forall p g x g',
      I g -> PestDetector._create_pest_detection p h w g = (Ok x, g') ->
      P x /\ I g') ->
  forall n acc g l g',
    I g -> Forall P acc ->
    PestDetector.detection_loop n h w acc g = (Ok l, g') ->
    Forall P l /\ List.length l = (List.length acc + n)%nat.
Proof.
  intros Hchoice Hcreate.
  induction n as [| n IH]; intros acc g l g' Hg Hacc H;
    cbn [PestDetector.detection_loop] in H.
  - injection H as H _. subst l. split; [exact Hacc | lia].
  - apply bind_inv in H as (p & g1 & Hp & H).
    apply bind_inv in H as (x & g2 & Hx & H).
    pose proof (Hchoice _ _ _ Hg Hp) as Hg1.
    destruct (Hcreate _ _ _ _ Hg1 Hx) as [Px Hg2].
    destruct (IH (acc ++ [x]) g2 l g' Hg2) as [Hl Hlen].
    + apply Forall_app. split; [exact Hacc | repeat constructor; exact Px].
    + exact H.
    + split; [exact Hl |]. rewrite Hlen, length_app. cbn [List.length]. lia.
Qed.

(** What a completed generation went through. *)
Lemma generate_inv (d : pyobj) (g : rng)
    (l : list PestDetector.Detection) (g' : rng) :
  PestDetector.generate d g = (Ok l, g') ->
  exists a h w z g1,
    d = PArray a /\
    PestDetector.unpack_height_width (shape a) = Ok (h, w) /\
    randint 0 4 g = (Ok z, g1) /\
    PestDetector.detection_loop (Z.to_nat z) h w [] g1 = (Ok l, g').
Proof.
  unfold PestDetector.generate. intro H.
  apply bind_inv in H as (shp & g0 & Hshp & H).
  apply lift_inv in Hshp as [Hshp ->].
  apply bind_inv in H as ([h w] & g0 & Hhw & H).
  apply lift_inv in Hhw as [Hhw ->].
  apply bind_inv in H as (z & g1 & Hz & H).
  destruct d as [a |]; [| discriminate].
  injection Hshp as <-.
  exists a, h, w, z, g1. repeat split; assumption.
Qed.

(** Every generated detection carries one of the three severities. *)
Lemma generate_severities (d : pyobj) (g : rng)
    (l : list PestDetector.Detection) (g' : rng) :
  PestDetector.generate d g = (Ok l, g') ->
  Forall (fun x => In (PestDetector.severity x) PestDetector.severities) l.
Proof.
  intro H. apply generate_inv in H as (a & h & w & z & g1 & _ & _ & _ & H).
  assert (Hchoice : forall g2 (r : result string) g3,
             True -> choice (keys PestDetector.pest_database) g2 = (r, g3) ->
             True) by (intros; exact I).
  assert (Hcreate : forall p g2 x g3,
             True ->
             PestDetector._create_pest_detection p h w g2 = (Ok x, g3) ->
             In (PestDetector.severity x) PestDetector.severities /\ True).
  { intros p g2 x g3 _ Hx. split; [| exact I].
    apply (create_severity _ _ _ _ _ _ Hx). }
  apply (detection_loop_invariant (fun _ => True) _ h w Hchoice Hcreate
           (Z.to_nat z) [] g1 l g' I (Forall_nil _) H).
Qed.

(** Under the generator's contract, at most three detections are
    generated, each within the scene. *)
Lemma generate_in_scene (d : pyobj) (g : rng)
    (l : list PestDetector.Detection) (g' : rng) :
  unit_samples g ->
  PestDetector.generate d g = (Ok l, g') ->
  (List.length l <= 3)%nat /\
  exists a h w,
    d = PArray a /\
    PestDetector.unpack_height_width (shape a) = Ok (h, w) /\
    Forall (detection_in_scene h w) l.
Proof.
  intros Hu H.
  apply generate_inv in H as (a & h & w & z & g1 & Hd & Hhw & Hz & H).
  pose proof (randint_range 0 4 _ _ _ Hu ltac:(lia) Hz) as Hzr.
  assert (Hu1 : unit_samples g1).
  { apply (unit_samples_moved g); [| exact Hu].
    apply (keeps_randint _ _ _ _ _ Hz). }
  assert (Hchoice : forall g2 (r : result string) g3,
             unit_samples g2 ->
             choice (keys PestDetector.pest_database) g2 = (r, g3) ->
             unit_samples g3).
  { intros g2 r g3 Hu2 Hc. apply (unit_samples_moved g2); [| exact Hu2].
    apply (keeps_choice _ _ _ _ Hc). }
  assert (Hcreate : forall p g2 x g3,
             unit_samples g2 ->
             PestDetector._create_pest_detection p h w g2 = (Ok x, g3) ->
             detection_in_scene h w x /\ unit_samples g3).
  { intros p g2 x g3 Hu2 Hx. split.
    - apply (create_in_scene _ _ _ _ _ _ Hu2 Hx).
    - apply (unit_samples_moved g2); [| exact Hu2].
      apply (keeps_create _ _ _ _ _ _ Hx). }
  destruct (detection_loop_invariant unit_samples _ h w Hchoice Hcreate
              (Z.to_nat z) [] g1 l g' Hu1 (Forall_nil _) H) as [Hl Hlen].
  split.
  - rewrite Hlen. cbn [List.length]. lia.
  - exists a, h, w. repeat split; assumption.
Qed.

(** The sort key is defined on the three severities. *)
Lemma severity_key_ok (x : PestDetector.Detection) :
  In (PestDetector.severity x) PestDetector.severities ->
  is_ok (PestDetector.severity_key x) = true.
Proof.
  unfold PestDetector.severity_key.
  intros [E | [E | [E | []]]]; rewrite <- E; reflexivity.
Qed.

(** What [detect] returns once generation has completed: the generated
    detections in stable descending order of severity. *)
Lemma detect_after_generate (d : pyobj) (g : rng)
    (l : list PestDetector.Detection) (g' : rng) :
  PestDetector.generate d g = (Ok l, g') ->
  PestDetector.detect d g = (sort_desc severity_rank l, g').
Proof.
  intro H.
  unfold PestDetector.detect, PestDetector.detect_body, try_except.
  rewrite (bind_ok _ _ _ _ _ H). unfold lift.
  rewrite sort_by_key_reverse_complete; [reflexivity |].
  eapply Forall_impl; [| apply (generate_severities _ _ _ _ H)].
  intros x Hx. apply severity_key_ok. exact Hx.
Qed.

(** When generation raises, [detect] returns the empty list. *)
Lemma detect_after_raise (d : pyobj) (g : rng) (e : exn) (g' : rng) :
  PestDetector.generate d g = (Raise e, g') ->
  PestDetector.detect d g = ([], g').
Proof.
  intro H.
  unfold PestDetector.detect, PestDetector.detect_body, try_except.
  rewrite (bind_raise _ _ _ _ _ H). reflexivity.
Qed.

(** ** The list of detections *)

Lemma severity_rank_values (x : PestDetector.Detection) :
  In (PestDetector.severity x) PestDetector.severities ->
  (PestDetector.severity x = "High" /\ severity_rank x = 3%Z) \/
  (PestDetector.severity x = "Medium" /\ severity_rank x = 2%Z) \/
  (PestDetector.severity x = "Low" /\ severity_rank x = 1%Z).
Proof.
  unfold severity_rank, total_key, PestDetector.severity_key.
  intros [E | [E | [E | []]]]; rewrite <- E;
    [right; right | right; left | left]; split; reflexivity.
Qed.

Lemma same_severity_same_rank (s : string) (a b : PestDetector.Detection) :
  String.eqb (PestDetector.severity a) s = true ->
  String.eqb (PestDetector.severity b) s = true ->
  severity_rank a = severity_rank b.
Proof.
  intros Ha Hb. apply String.eqb_eq in Ha, Hb.
  unfold severity_rank, total_key, PestDetector.severity_key.
  rewrite Ha, Hb. reflexivity.
Qed.

(** C9.  The list returned by [PestDetector.detect] is always sorted in
    descending order of severity tier (High 3 > Medium 2 > Low 1), and it
    holds the generated detections with those of equal severity in their
    generation order. *)
Theorem detections_sorted_by_severity (hyperspectral_data : pyobj) (g : rng) :
  let out := fst (PestDetector.detect hyperspectral_data g) in
  StronglySorted (fun a b => (severity_rank b <= severity_rank a)%Z) out /\
  Forall (fun x =>
            (PestDetector.severity x = "High" /\ severity_rank x = 3%Z) \/
            (PestDetector.severity x = "Medium" /\ severity_rank x = 2%Z) \/
            (PestDetector.severity x = "Low" /\ severity_rank x = 1%Z)) out /\
  (forall generated g',
      PestDetector.generate hyperspectral_data g = (Ok generated, g') ->
      Permutation out generated /\
      forall s,
        filter (fun x => String.eqb (PestDetector.severity x) s) out
        = filter (fun x => String.eqb (PestDetector.severity x) s) generated).
Proof.
  cbv zeta.
  destruct (PestDetector.generate hyperspectral_data g) as [[l | e] g1] eqn:E.
  - rewrite (detect_after_generate _ _ _ _ E). cbn [fst].
    split; [apply sort_desc_sorted | split].
    + apply (Permutation_Forall (Permutation_sym (sort_desc_perm _ l))).
      eapply Forall_impl; [| apply (generate_severities _ _ _ _ E)].
      intros x Hx. apply severity_rank_values. exact Hx.
    + intros generated g' Hgen. injection Hgen as <- _.
      split; [apply sort_desc_perm |].
      intro s. apply sort_desc_filter. apply same_severity_same_rank.
  - rewrite (detect_after_raise _ _ _ _ E). cbn [fst].
    split; [constructor | split; [constructor |]].
    intros generated g' Hgen. discriminate.
Qed.

(** Aphids (Low), a corn borer (High) and leaf rust (Low) are generated in
    this order; the corn borer comes out first and the two Low detections
    keep their order. *)
Lemma detections_sorted_by_severity_witness :
  map PestDetector.type
      (fst (PestDetector.detect (uniform_cube 2 2 1 0.5) mixed_rng))
  = ["Corn Borer"; "Aphids"; "Leaf Rust"] /\
  exists generated g',
    PestDetector.generate (uniform_cube 2 2 1 0.5) mixed_rng
    = (Ok generated, g') /\
    map PestDetector.type generated = ["Aphids"; "Corn Borer"; "Leaf Rust"] /\
    Permutation (fst (PestDetector.detect (uniform_cube 2 2 1 0.5) mixed_rng))
                generated /\
    forall s,
      filter (fun x => String.eqb (PestDetector.severity x) s)
             (fst (PestDetector.detect (uniform_cube 2 2 1 0.5) mixed_rng))
      = filter (fun x => String.eqb (PestDetector.severity x) s) generated.
Proof.
  split; [vm_compute; reflexivity |].
  destruct (PestDetector.generate (uniform_cube 2 2 1 0.5) mixed_rng)
    as [[l | e] g1] eqn:E; [| vm_compute in E; discriminate].
  exists l, g1. split; [reflexivity |]. split.
  - vm_compute in E. injection E as <- _. reflexivity.
  - apply (proj2 (proj2 (detections_sorted_by_severity
                           (uniform_cube 2 2 1 0.5) mixed_rng)) l g1 E).
Defined.

(** Under the generator's contract every returned detection has one of
    the three severities, a confidence in the band of that severity, and a
    location within the [h] x [w] scene, in pixels. *)
Lemma detect_in_scene (a : ndarray) (h w : nat) (g : rng) :
  unit_samples g ->
  PestDetector.unpack_height_width (shape a) = Ok (h, w) ->
  Forall (detection_in_scene h w) (fst (PestDetector.detect (PArray a) g)).
Proof.
  intros Hu Hhw.
  destruct (PestDetector.generate (PArray a) g) as [[l | e] g1] eqn:E.
  - rewrite (detect_after_generate _ _ _ _ E). cbn [fst].
    apply (Permutation_Forall (Permutation_sym (sort_desc_perm _ l))).
    destruct (generate_in_scene _ _ _ _ Hu E)
      as (_ & a' & h' & w' & Ha & Hhw' & Hl).
    injection Ha as <-. rewrite Hhw in Hhw'. injection Hhw' as <- <-.
    exact Hl.
  - rewrite (detect_after_raise _ _ _ _ E). constructor.
Qed.

(** ** Completion under the generator's contract *)

Lemma unit_samples_skip (n : nat) (g : rng) :
  unit_samples g -> unit_samples (skip n g).
Proof. intros H k. apply H. Qed.

Lemma skip_skip (n m : nat) (g : rng) : skip n (skip m g) = skip (n + m) g.
Proof. unfold skip. cbn [samples cursor]. f_equal. lia. Qed.

Lemma uniform_run (lo hi : Q) (g : rng) :
  uniform lo hi g = (Ok (lo + (hi - lo) * samples g (cursor g)), skip 1 g).
Proof. reflexivity. Qed.

Lemma randint_run (lo hi : Z) (g : rng) :
  randint lo hi g
  = (Ok (lo + Qfloor (inject_Z (hi - lo) * samples g (cursor g)))%Z, skip 1 g).
Proof. reflexivity. Qed.

(** A uniform choice from a non-empty list completes. *)
Lemma choice_run {A} (a : list A) (g : rng) :
  unit_samples g -> a <> [] ->
  exists x, In x a /\ choice a g = (Ok x, skip 1 g).
Proof.
  intros Hu Ha. destruct a as [| y a]; [contradiction |].
  unfold choice.
  pose proof (randint_run 0 (Z.of_nat (List.length (y :: a))) g) as Hr.
  pose proof (randint_range 0 (Z.of_nat (List.length (y :: a))) g _ _ Hu
                ltac:(cbn [List.length]; lia) Hr) as Hrange.
  rewrite (bind_ok _ _ _ _ _ Hr).
  set (i := (0 + Qfloor (inject_Z (Z.of_nat (List.length (y :: a)) - 0)
                         * samples g (cursor g)))%Z) in *.
  destruct (i <? 0)%Z eqn:Ei; [apply Z.ltb_lt in Ei; lia |].
  destruct (nth_error (y :: a) (Z.to_nat i)) as [x |] eqn:En.
  - exists x. split; [apply (nth_error_In _ _ En) | reflexivity].
  - apply nth_error_None in En. lia.
Qed.

(** The weighted choice of a severity completes. *)
Lemma choice_p_severity_run (g : rng) :
  unit_samples g ->
  exists s,
    In s PestDetector.severities /\
    choice_p PestDetector.severities [0.4; 0.4; 0.2] g = (Ok s, skip 1 g).
Proof.
  intro Hu. destruct (Hu (cursor g)) as [H0 H1].
  unfold choice_p, bind, next_sample, searchsorted_right.
  cbn [cumsum_from last map filter].
  set (u := samples g (cursor g)) in *.
  set (t := 0 + 0.4 + 0.4 + 0.2).
  assert (E3 : Qle_bool (t / t) u = false).
  { destruct (Qle_bool (t / t) u) eqn:E; [| reflexivity].
    apply Qle_bool_iff in E.
    assert (Ht : t / t == 1) by (unfold t; reflexivity).
    rewrite Ht in E. lra. }
  rewrite E3.
  destruct (Qle_bool ((0 + 0.4) / t) u), (Qle_bool ((0 + 0.4 + 0.4) / t) u);
    cbn [List.length nth_error PestDetector.severities];
    eexists; (split; [| reflexivity]); cbn; tauto.
Qed.

(** Every catalogued pest has candidate recommendations. *)
Lemma recommendations_available (pest_type : string) :
  Py.get PestDetector.recommendations pest_type ["Monitor closely"] <> [].
Proof.
  unfold Py.get, PestDetector.recommendations. cbn [getitem].
  repeat (match goal with
          | |- context [String.eqb ?a ?b] => destruct (String.eqb a b)
          end; [discriminate |]).
  discriminate.
Qed.

(** Creating a detection completes, after five samples. *)
Lemma create_run (pest_type : string) (h w : nat) (g : rng) :
  unit_samples g ->
  exists x,
    PestDetector._create_pest_detection pest_type h w g = (Ok x, skip 5 g).
Proof.
  intro Hu. unfold PestDetector._create_pest_detection.
  destruct (choice_p_severity_run g Hu) as (s & Hs & Es).
  rewrite (bind_ok _ _ _ _ _ Es).
  assert (Hrange : exists lo hi,
             getitem PestDetector.confidence_ranges s = Ok (lo, hi)).
  { destruct Hs as [E | [E | [E | []]]]; rewrite <- E;
      eexists; eexists; reflexivity. }
  destruct Hrange as (lo & hi & Hrange). rewrite Hrange.
  unfold lift at 1. unfold bind at 1.
  rewrite (bind_ok _ _ _ _ _ (uniform_run _ _ _)).
  rewrite (bind_ok _ _ _ _ _ (uniform_run _ _ _)).
  rewrite (bind_ok _ _ _ _ _ (uniform_run _ _ _)).
  rewrite !skip_skip. cbn [Nat.add].
  destruct (choice_run
              (Py.get PestDetector.recommendations pest_type ["Monitor closely"])
              (skip 4 g) (unit_samples_skip 4 g Hu)
              (recommendations_available pest_type)) as (r & _ & Er).
  rewrite (bind_ok _ _ _ _ _ Er). rewrite skip_skip. cbn [Nat.add].
  eexists. reflexivity.
Qed.

(** The loop completes, after six samples per round. *)
Lemma detection_loop_run (h w n : nat) :
  forall acc g,
    unit_samples g ->
    exists l,
      PestDetector.detection_loop n h w acc g = (Ok l, skip (6 * n) g).
Proof.
  induction n as [| n IH]; intros acc g Hu; cbn [PestDetector.detection_loop].
  - exists acc. unfold ret, skip. destruct g. reflexivity.
  - destruct (choice_run (keys PestDetector.pest_database) g Hu
                ltac:(discriminate)) as (p & _ & Ep).
    rewrite (bind_ok _ _ _ _ _ Ep).
    destruct (create_run p h w (skip 1 g) (unit_samples_skip 1 g Hu))
      as (x & Ex).
    rewrite (bind_ok _ _ _ _ _ Ex). rewrite skip_skip. cbn [Nat.add].
    destruct (IH (acc ++ [x]) (skip 6 g) (unit_samples_skip 6 g Hu))
      as (l & El).
    exists l. rewrite El, skip_skip. f_equal. f_equal. lia.
Qed.

(** A shape with at least two dimensions unpacks into height and width. *)
Lemma unpack_two_dimensions (shp : list nat) :
  (2 <= List.length shp)%nat ->
  exists h w, PestDetector.unpack_height_width shp = Ok (h, w).
Proof.
  intro H. destruct shp as [| h [| w rest]]; cbn [List.length] in H; try lia.
  exists h, w. unfold PestDetector.unpack_height_width, slice, slice_index.
  cbn [List.length Z.ltb Z.compare Z.to_nat Pos.to_nat Pos.iter_op Nat.add].
  replace (Nat.min 2 (S (S (List.length rest)))) with 2%nat by lia.
  reflexivity.
Qed.

(** C10.  For every cube with at least a 2-D spatial shape, and a
    generator that honours its contract, [PestDetector.detect] returns as
    many detections as the number drawn by [randint(0, 4)], which is one of
    0, 1, 2, 3: at most 3 detections. *)
Theorem detection_count_at_most_three (a : ndarray) (g : rng) :
  (2 <= List.length (shape a))%nat ->
  unit_samples g ->
  exists num_detections g1,
    randint 0 4 g = (Ok num_detections, g1) /\
    (0 <= num_detections <= 3)%Z /\
    List.length (fst (PestDetector.detect (PArray a) g))
    = Z.to_nat num_detections /\
    (List.length (fst (PestDetector.detect (PArray a) g)) <= 3)%nat.
Proof.
  intros Hdim Hu.
  destruct (unpack_two_dimensions (shape a) Hdim) as (h & w & Hhw).
  pose proof (randint_run 0 4 g) as Hz.
  pose proof (randint_range 0 4 g _ _ Hu ltac:(lia) Hz) as Hrange.
  set (z := (0 + Qfloor (inject_Z (4 - 0) * samples g (cursor g)))%Z) in *.
  destruct (detection_loop_run h w (Z.to_nat z) [] (skip 1 g)
              (unit_samples_skip 1 g Hu)) as (l & El).
  assert (Egen : PestDetector.generate (PArray a) g
                 = (Ok l, skip (6 * Z.to_nat z) (skip 1 g))).
  { unfold PestDetector.generate. cbn [shape_of].
    unfold lift at 1. unfold bind at 1. rewrite Hhw.
    unfold lift at 1. unfold bind at 1.
    rewrite (bind_ok _ _ _ _ _ Hz). cbn [fst snd]. exact El. }
  exists z, (skip 1 g). split; [reflexivity |]. split; [lia |].
  rewrite (detect_after_generate _ _ _ _ Egen). cbn [fst].
  rewrite sort_desc_length.
  destruct (generate_in_scene _ _ _ _ Hu Egen) as [Hlen _].
  assert (Hcount : List.length l = Z.to_nat z).
  { assert (Hsev : forall g2 (r : result string) g3,
               True ->
               choice (keys PestDetector.pest_database) g2 = (r, g3) -> True)
      by (intros; exact I).
    assert (Hcr : forall p g2 x g3,
               True ->
               PestDetector._create_pest_detection p h w g2 = (Ok x, g3) ->
               True /\ True) by (intros; split; exact I).
    destruct (detection_loop_invariant (fun _ => True) (fun _ => True) h w
                Hsev Hcr (Z.to_nat z) [] (skip 1 g) l _ I (Forall_nil _) El)
      as [_ Hl].
    exact Hl. }
  split; [exact Hcount | exact Hlen].
Qed.

Lemma detection_count_at_most_three_witness :
  exists num_detections g1,
    randint 0 4 (constant_rng 0.75) = (Ok num_detections, g1) /\
    (0 <= num_detections <= 3)%Z /\
    List.length
      (fst (PestDetector.detect (uniform_cube 2 2 1 0.5) (constant_rng 0.75)))
    = Z.to_nat num_detections /\
    (List.length
       (fst (PestDetector.detect (uniform_cube 2 2 1 0.5)
               (constant_rng 0.75))) <= 3)%nat.
Proof.
  apply (detection_count_at_most_three
           {| shape := [2; 2; 1]%nat; data := repeat 0.5 (2 * 2 * 1) |}
           (constant_rng 0.75)).
  - cbn [shape List.length]. lia.
  - intro k. cbn [constant_rng samples]. split; lra.
Defined.

(* ================================================================== *)
(** * Further properties of the models *)

(** ** Health metrics *)

(** What the health scoring returns: bounded metrics, and the overall
    score, status and recommendations computed from those metrics. *)
Lemma health_score_inv (features : list Q) (now : string) (g : rng) :
  exists r g',
    CropHealthAnalyzer.score features now g = (Ok r, g') /\
    (0 <= CropHealthAnalyzer.chlorophyll_content r /\
     CropHealthAnalyzer.chlorophyll_content r <= 100) /\
    (0 <= CropHealthAnalyzer.water_stress r /\
     CropHealthAnalyzer.water_stress r <= 100) /\
    (0 <= CropHealthAnalyzer.nutrient_deficiency r /\
     CropHealthAnalyzer.nutrient_deficiency r <= 100) /\
    (0 <= CropHealthAnalyzer.disease_risk r /\
     CropHealthAnalyzer.disease_risk r <= 100) /\
    CropHealthAnalyzer.overall_score r
    = CropHealthAnalyzer._calculate_overall_health_score
        (CropHealthAnalyzer.chlorophyll_content r)
        (CropHealthAnalyzer.water_stress r)
        (CropHealthAnalyzer.nutrient_deficiency r)
        (CropHealthAnalyzer.disease_risk r) /\
    CropHealthAnalyzer.health_status r
    = CropHealthAnalyzer._get_health_status
        (CropHealthAnalyzer.overall_score r) /\
    CropHealthAnalyzer.recommendations r
    = CropHealthAnalyzer._generate_health_recommendations
        (CropHealthAnalyzer.chlorophyll_content r)
        (CropHealthAnalyzer.water_stress r)
        (CropHealthAnalyzer.nutrient_deficiency r)
        (CropHealthAnalyzer.disease_risk r)
        (CropHealthAnalyzer.overall_score r).
Proof.
  unfold CropHealthAnalyzer.score.
  unfold CropHealthAnalyzer._analyze_chlorophyll_content,
    CropHealthAnalyzer._analyze_water_stress,
    CropHealthAnalyzer._analyze_nutrient_deficiency,
    CropHealthAnalyzer._analyze_disease_risk.
  destruct (0 <? List.length features)%nat;
    destruct (6 <? List.length features)%nat;
    destruct (1 <? List.length features)%nat;
    (eexists; eexists; split; [reflexivity |];
     cbn [CropHealthAnalyzer.chlorophyll_content
          CropHealthAnalyzer.water_stress
          CropHealthAnalyzer.nutrient_deficiency
          CropHealthAnalyzer.disease_risk CropHealthAnalyzer.overall_score
          CropHealthAnalyzer.health_status
          CropHealthAnalyzer.recommendations];
     repeat split; try reflexivity;
     try (apply max_min_bounds; lra); lra).
Qed.

(** The record of a health analysis is the default one or one the scoring
    returned. *)
Lemma health_analyze_inv (sqrt : Q -> Q) (d : pyobj)
    (idx : list (string * index_value)) (now : string) (g : rng) :
  fst (CropHealthAnalyzer.analyze sqrt d idx now g)
  = CropHealthAnalyzer.default_result now \/
  exists f g',
    CropHealthAnalyzer._extract_health_features sqrt d idx = Ok f /\
    CropHealthAnalyzer.score f now g
    = (Ok (fst (CropHealthAnalyzer.analyze sqrt d idx now g)), g').
Proof.
  destruct (health_analyze_cases sqrt d idx now g)
    as [(f & g' & Hf & Hs) | (e & _ & Hd)].
  - right. exists f, g'. split; assumption.
  - left. rewrite Hd. reflexivity.
Qed.

(** X1.  Every record returned by [CropHealthAnalyzer.analyze] has its four
    metrics and its overall score in [0, 100]. *)
Theorem health_metrics_within_bounds
    (sqrt : Q -> Q) (hyperspectral_data : pyobj)
    (spectral_indices : list (string * index_value))
    (now : string) (g : rng) :
  let r := fst (CropHealthAnalyzer.analyze
                  sqrt hyperspectral_data spectral_indices now g) in
  (0 <= CropHealthAnalyzer.chlorophyll_content r /\
   CropHealthAnalyzer.chlorophyll_content r <= 100) /\
  (0 <= CropHealthAnalyzer.water_stress r /\
   CropHealthAnalyzer.water_stress r <= 100) /\
  (0 <= CropHealthAnalyzer.nutrient_deficiency r /\
   CropHealthAnalyzer.nutrient_deficiency r <= 100) /\
  (0 <= CropHealthAnalyzer.disease_risk r /\
   CropHealthAnalyzer.disease_risk r <= 100) /\
  (0 <= CropHealthAnalyzer.overall_score r /\
   CropHealthAnalyzer.overall_score r <= 100).
Proof.
  cbv zeta.
  destruct (health_analyze_inv sqrt hyperspectral_data spectral_indices now g)
    as [Hd | (f & g' & _ & Hs)].
  - rewrite Hd. unfold CropHealthAnalyzer.default_result.
    cbn [CropHealthAnalyzer.chlorophyll_content
         CropHealthAnalyzer.water_stress
         CropHealthAnalyzer.nutrient_deficiency
         CropHealthAnalyzer.disease_risk CropHealthAnalyzer.overall_score].
    repeat split; lra.
  - destruct (health_score_inv f now g)
      as (r & g2 & Hr & Hc & Hw & Hn & Hdr & Ho & _).
    rewrite Hr in Hs. injection Hs as Hs _. rewrite <- Hs.
    repeat split; try tauto;
      rewrite Ho;
      apply (max_min_bounds 0 100); lra.
Qed.

(** On metrics within [0, 100] the clamp of the overall score is idle. *)
Lemma overall_score_idle_clamp (c w n d : Q) :
  0 <= c -> c <= 100 -> 0 <= w -> w <= 100 ->
  0 <= n -> n <= 100 -> 0 <= d -> d <= 100 ->
  CropHealthAnalyzer._calculate_overall_health_score c w n d
  == weighted_sum c w n d.
Proof.
  intros. unfold CropHealthAnalyzer._calculate_overall_health_score.
  cbn [CropHealthAnalyzer.w_chlorophyll CropHealthAnalyzer.w_water_stress
       CropHealthAnalyzer.w_nutrient_deficiency
       CropHealthAnalyzer.w_disease_risk CropHealthAnalyzer.weights].
  fold (weighted_sum c w n d).
  assert (Hs : 0 <= weighted_sum c w n d /\ weighted_sum c w n d <= 100)
    by (unfold weighted_sum; split; lra).
  unfold Py.max, Py.min.
  case_ltb (weighted_sum c w n d) 100.
  - case_ltb 0 (weighted_sum c w n d); lra.
  - case_ltb 0 100; lra.
Qed.

(** X2.  Whenever feature extraction succeeds, the overall score of the
    returned record is the plain weighted sum
    0.4*chlorophyll + 0.25*(100 - water_stress)
    + 0.2*(100 - nutrient_deficiency) + 0.15*(100 - disease_risk) of the
    metrics of that same record: the clamp never acts. *)
Theorem overall_score_is_weighted_sum_of_returned_metrics
    (sqrt : Q -> Q) (hyperspectral_data : pyobj)
    (spectral_indices : list (string * index_value))
    (now : string) (g : rng) (features : list Q) :
  CropHealthAnalyzer._extract_health_features
    sqrt hyperspectral_data spectral_indices = Ok features ->
  let r := fst (CropHealthAnalyzer.analyze
                  sqrt hyperspectral_data spectral_indices now g) in
  CropHealthAnalyzer.overall_score r
  == weighted_sum (CropHealthAnalyzer.chlorophyll_content r)
                  (CropHealthAnalyzer.water_stress r)
                  (CropHealthAnalyzer.nutrient_deficiency r)
                  (CropHealthAnalyzer.disease_risk r).
Proof.
  intro Hf. cbv zeta.
  destruct (health_analyze_cases sqrt hyperspectral_data spectral_indices
              now g) as [(f & g' & _ & Hs) | (e & He & _)];
    [| rewrite Hf in He; discriminate].
  destruct (health_score_inv f now g)
    as (r & g2 & Hr & Hc & Hw & Hn & Hdr & Ho & _).
  rewrite Hr in Hs. injection Hs as Hs _. rewrite <- Hs, Ho.
  apply overall_score_idle_clamp; tauto.
Qed.

Lemma overall_score_is_weighted_sum_of_returned_metrics_witness :
  let r := fst (CropHealthAnalyzer.analyze sqrt3 flat_scene ndvi_only ""
                  cycling_rng) in
  CropHealthAnalyzer.overall_score r
  == weighted_sum (CropHealthAnalyzer.chlorophyll_content r)
                  (CropHealthAnalyzer.water_stress r)
                  (CropHealthAnalyzer.nutrient_deficiency r)
                  (CropHealthAnalyzer.disease_risk r).
Proof.
  apply (overall_score_is_weighted_sum_of_returned_metrics
           sqrt3 flat_scene ndvi_only "" cycling_rng
           [0.5; sqrt3 (Numpy.mean [(0.5 - Numpy.mean [0.5])
                                    * (0.5 - Numpy.mean [0.5])]);
            Numpy.percentile [0.5] 25; Numpy.percentile [0.5] 75;
            0.5; 0.5]).
  reflexivity.
Defined.

Lemma overall_score_as_clamp (c w n d : Q) :
  CropHealthAnalyzer._calculate_overall_health_score c w n d
  == clamp 0 100 (weighted_sum c w n d).
Proof.
  unfold CropHealthAnalyzer._calculate_overall_health_score.
  cbn [CropHealthAnalyzer.w_chlorophyll CropHealthAnalyzer.w_water_stress
       CropHealthAnalyzer.w_nutrient_deficiency
       CropHealthAnalyzer.w_disease_risk CropHealthAnalyzer.weights].
  fold (weighted_sum c w n d). apply max_min_is_clamp. lra.
Qed.

(** X3.  The overall health score grows with chlorophyll and falls with water
    stress, nutrient deficiency and disease risk. *)
Theorem overall_score_monotone (c1 c2 w1 w2 n1 n2 d1 d2 : Q) :
  c1 <= c2 -> w2 <= w1 -> n2 <= n1 -> d2 <= d1 ->
  CropHealthAnalyzer._calculate_overall_health_score c1 w1 n1 d1
  <= CropHealthAnalyzer._calculate_overall_health_score c2 w2 n2 d2.
Proof.
  intros Hc Hw Hn Hd.
  rewrite (overall_score_as_clamp c1 w1 n1 d1).
  rewrite (overall_score_as_clamp c2 w2 n2 d2). unfold clamp.
  set (s1 := weighted_sum c1 w1 n1 d1). set (s2 := weighted_sum c2 w2 n2 d2).
  assert (Hs : s1 <= s2) by (unfold s1, s2, weighted_sum; lra).
  case_ltb s1 0; case_ltb s2 0; try lra;
    case_ltb 100 s1; case_ltb 100 s2; lra.
Qed.

Lemma overall_score_monotone_witness :
  CropHealthAnalyzer._calculate_overall_health_score 60 40 30 25
  <= CropHealthAnalyzer._calculate_overall_health_score 80 20 10 10.
Proof. apply overall_score_monotone; lra. Defined.

(** ** Recommendation rules *)

(** Closes a goal about membership in, or distinctness of, a short list of
    distinct literal messages, using the order facts of the context. *)
Ltac settle_messages :=
  cbn [app In List.length];
  repeat split;
  try (intro; lra);
  try lia;
  try (repeat constructor; cbn [In]; intuition discriminate);
  try (intro; intuition (try discriminate; try lra));
  try (intuition (try discriminate; try lra)).

(** X4.  The health recommendations hold no message twice and between one and
    five messages; each threshold message is present exactly when its
    threshold is crossed, exactly one of the three overall-score messages
    is present, and which one is decided by the score alone. *)
Theorem health_recommendations_characterised (c w n d o : Q) :
  let recs := CropHealthAnalyzer._generate_health_recommendations c w n d o in
  NoDup recs /\
  (1 <= List.length recs <= 5)%nat /\
  (In "Consider nitrogen fertilizer application to improve chlorophyll content"
      recs <-> c < 60) /\
  (In "Implement irrigation or water management strategies" recs
   <-> 40 < w) /\
  (In "Conduct soil test and apply appropriate fertilizers" recs
   <-> 30 < n) /\
  (In "Monitor for disease symptoms and consider preventive treatments" recs
   <-> 25 < d) /\
  (In "Immediate attention required - conduct field inspection" recs
   <-> o < 50) /\
  (In "Monitor closely and consider management interventions" recs
   <-> 50 <= o /\ o < 70) /\
  (In "Continue current management practices" recs <-> 70 <= o).
Proof.
  cbv zeta. unfold CropHealthAnalyzer._generate_health_recommendations.
  case_ltb c 60; case_ltb 40 w; case_ltb 30 n; case_ltb 25 d;
    (case_ltb o 50; [| case_ltb o 70]);
    settle_messages.
Qed.

(** X13.  The soil recommendations hold no message twice and between one and six
    messages; each rule's message is present exactly when its threshold is
    crossed, so lime and sulfur never come together, nor irrigation and
    drainage; the catch-all is present exactly when every value is within
    its optimal range. *)
Theorem soil_recommendations_characterised (ph om m n p k : Q) :
  let recs := SoilAnalyzer._generate_soil_recommendations ph om m n p k in
  NoDup recs /\
  (1 <= List.length recs <= 6)%nat /\
  (In "Consider lime application to raise pH" recs <-> ph < 6.0) /\
  (In "Consider sulfur application to lower pH" recs <-> 7.5 < ph) /\
  (In "Increase organic matter with compost or cover crops" recs
   <-> om < 3.0) /\
  (In "Implement irrigation to improve moisture levels" recs <-> m < 30) /\
  (In "Improve drainage to prevent waterlogging" recs <-> 80 < m) /\
  (In "Apply nitrogen fertilizer" recs <-> n < 50) /\
  (In "Apply phosphorus fertilizer" recs <-> p < 40) /\
  (In "Apply potassium fertilizer" recs <-> k < 45) /\
  (In "Soil conditions are within optimal ranges" recs
   <-> 6.0 <= ph /\ ph <= 7.5 /\ 3.0 <= om /\ 30 <= m /\ m <= 80 /\
       50 <= n /\ 40 <= p /\ 45 <= k).
Proof.
  cbv zeta.
  unfold SoilAnalyzer._generate_soil_recommendations, SoilAnalyzer.catch_all.
  (case_ltb ph 6.0; [| case_ltb 7.5 ph]);
    case_ltb om 3.0;
    (case_ltb m 30; [| case_ltb 80 m]);
    case_ltb n 50; case_ltb p 40; case_ltb k 45;
    settle_messages.
Qed.

(** ** Status and recommendations *)

Lemma health_status_by_score (o : Q) :
  (CropHealthAnalyzer._get_health_status o = "poor" <-> o < 50) /\
  (CropHealthAnalyzer._get_health_status o = "attention_needed"
   <-> 50 <= o /\ o < 70) /\
  (CropHealthAnalyzer._get_health_status o = "healthy" \/
   CropHealthAnalyzer._get_health_status o = "excellent" <-> 70 <= o).
Proof.
  unfold CropHealthAnalyzer._get_health_status.
  cbn [CropHealthAnalyzer.excellent CropHealthAnalyzer.healthy
       CropHealthAnalyzer.attention_needed
       CropHealthAnalyzer.health_thresholds].
  destruct (Qle_bool 90 o) eqn:E90;
    [apply Qle_bool_iff in E90
    | apply not_true_iff_false in E90; rewrite Qle_bool_iff in E90;
      apply Qnot_le_lt in E90];
    (destruct (Qle_bool 70 o) eqn:E70;
     [apply Qle_bool_iff in E70
     | apply not_true_iff_false in E70; rewrite Qle_bool_iff in E70;
       apply Qnot_le_lt in E70]);
    (destruct (Qle_bool 50 o) eqn:E50;
     [apply Qle_bool_iff in E50
     | apply not_true_iff_false in E50; rewrite Qle_bool_iff in E50;
       apply Qnot_le_lt in E50]);
    repeat split; intros; try lra; try discriminate;
    try (intuition (try discriminate; try lra)); auto.
Qed.

Lemma overall_branch_membership (c w n d o : Q) :
  let recs := CropHealthAnalyzer._generate_health_recommendations c w n d o in
  (In "Immediate attention required - conduct field inspection" recs
   <-> o < 50) /\
  (In "Monitor closely and consider management interventions" recs
   <-> 50 <= o /\ o < 70) /\
  (In "Continue current management practices" recs <-> 70 <= o).
Proof.
  cbv zeta. unfold CropHealthAnalyzer._generate_health_recommendations.
  destruct (Qltb c 60), (Qltb 40 w), (Qltb 30 n), (Qltb 25 d);
    (case_ltb o 50; [| case_ltb o 70]);
    settle_messages.
Qed.

(** X6.  In every record returned by [CropHealthAnalyzer.analyze] the status
    and the recommendations agree: 'poor' goes with the call for immediate
    attention, 'attention_needed' with close monitoring, and 'healthy' or
    'excellent' with continuing the current practices. *)
Theorem status_agrees_with_recommendations
    (sqrt : Q -> Q) (hyperspectral_data : pyobj)
    (spectral_indices : list (string * index_value))
    (now : string) (g : rng) :
  let r := fst (CropHealthAnalyzer.analyze
                  sqrt hyperspectral_data spectral_indices now g) in
  (CropHealthAnalyzer.health_status r = "poor" <->
   In "Immediate attention required - conduct field inspection"
      (CropHealthAnalyzer.recommendations r)) /\
  (CropHealthAnalyzer.health_status r = "attention_needed" <->
   In "Monitor closely and consider management interventions"
      (CropHealthAnalyzer.recommendations r)) /\
  (CropHealthAnalyzer.health_status r = "healthy" \/
   CropHealthAnalyzer.health_status r = "excellent" <->
   In "Continue current management practices"
      (CropHealthAnalyzer.recommendations r)).
Proof.
  cbv zeta.
  destruct (health_analyze_inv sqrt hyperspectral_data spectral_indices now g)
    as [Hd | (f & g' & _ & Hs)].
  - rewrite Hd. unfold CropHealthAnalyzer.default_result.
    cbn [CropHealthAnalyzer.health_status CropHealthAnalyzer.recommendations
         In].
    repeat split; intros; try discriminate;
      intuition (try discriminate; auto).
  - destruct (health_score_inv f now g)
      as (r & g2 & Hr & _ & _ & _ & _ & _ & Hst & Hrec).
    rewrite Hr in Hs. injection Hs as Hs _. rewrite <- Hs, Hst, Hrec.
    destruct (health_status_by_score (CropHealthAnalyzer.overall_score r))
      as (S1 & S2 & S3).
    destruct (overall_branch_membership
                (CropHealthAnalyzer.chlorophyll_content r)
                (CropHealthAnalyzer.water_stress r)
                (CropHealthAnalyzer.nutrient_deficiency r)
                (CropHealthAnalyzer.disease_risk r)
                (CropHealthAnalyzer.overall_score r)) as (M1 & M2 & M3).
    rewrite S1, S2, S3, M1, M2, M3. repeat split; tauto.
Qed.

(** ** Disease risk *)

Lemma disease_risk_cap (x u : Q) :
  0 <= u -> u < 1 ->
  Py.max 0 (Py.min 100 (Py.min 50 x + (5 + (15 - 5) * u))) <= 65.
Proof.
  intros H0 H1. unfold Py.max, Py.min.
  case_ltb x 50;
    match goal with
    | |- context [Qltb ?a 100] => case_ltb a 100
    end;
    match goal with
    | |- context [Qltb 0 ?a] => case_ltb 0 a
    end; lra.
Qed.

(** X7.  When the samples that the health scoring reads as unit samples
    lie in [0, 1) - the second to fourth upcoming ones; the first is the
    normal deviate of the chlorophyll noise and is left free - the disease
    risk of every record returned by [CropHealthAnalyzer.analyze] is at most
    65: the spectral term is capped at 50 and the baseline stays below
    15. *)
Theorem disease_risk_at_most_65
    (sqrt : Q -> Q) (hyperspectral_data : pyobj)
    (spectral_indices : list (string * index_value))
    (now : string) (g : rng) :
  (forall k, (1 <= k <= 3)%nat -> 0 <= upcoming g k /\ upcoming g k < 1) ->
  CropHealthAnalyzer.disease_risk
    (fst (CropHealthAnalyzer.analyze
            sqrt hyperspectral_data spectral_indices now g)) <= 65.
Proof.
  intro Hu.
  pose proof (Hu 2%nat ltac:(lia)) as [H20 H21].
  pose proof (Hu 3%nat ltac:(lia)) as [H30 H31].
  rewrite upcoming_shift in H20, H21, H30, H31. cbn [Nat.add] in *.
  unfold CropHealthAnalyzer.analyze, CropHealthAnalyzer.analyze_body,
    try_except, bind, lift.
  destruct (CropHealthAnalyzer._extract_health_features
              sqrt hyperspectral_data spectral_indices) as [f | e];
    [| cbn; lra].
  unfold CropHealthAnalyzer.score.
  unfold CropHealthAnalyzer._analyze_chlorophyll_content,
    CropHealthAnalyzer._analyze_water_stress,
    CropHealthAnalyzer._analyze_nutrient_deficiency,
    CropHealthAnalyzer._analyze_disease_risk.
  (destruct (0 <? List.length f)%nat eqn:E0;
   [apply Nat.ltb_lt in E0 | apply Nat.ltb_ge in E0]);
    (destruct (6 <? List.length f)%nat eqn:E6;
     [apply Nat.ltb_lt in E6 | apply Nat.ltb_ge in E6]);
    (destruct (1 <? List.length f)%nat eqn:E1;
     [apply Nat.ltb_lt in E1 | apply Nat.ltb_ge in E1]);
    try (exfalso; lia);
    cbn [fst CropHealthAnalyzer.disease_risk bind ret normal uniform
         next_sample samples cursor];
    try lra;
    apply disease_risk_cap; assumption.
Qed.

(** A generator whose first sample, the chlorophyll deviate, is -2. *)
Lemma disease_risk_at_most_65_witness :
  CropHealthAnalyzer.disease_risk
    (fst (CropHealthAnalyzer.analyze sqrt3 flat_scene ndvi_only ""
            (table_rng [-2; 0.5; 0.25; 0.75]))) <= 65.
Proof.
  apply (disease_risk_at_most_65 sqrt3 flat_scene ndvi_only ""
           (table_rng [-2; 0.5; 0.25; 0.75])).
  intros k Hk. unfold upcoming, table_rng. cbn [samples cursor Nat.add].
  destruct k as [| [| [| [| k]]]]; try lia; cbn [nth]; split; lra.
Defined.

(** ** The feature vectors *)

Lemma index_loop_inv (sqrt : Q -> Q) (items : list (string * index_value)) :
  forall acc f,
    CropHealthAnalyzer.index_loop sqrt acc items = Ok f ->
    exists rest,
      f = acc ++ rest /\
      List.length rest = (6 * count_arrays items)%nat /\
      (forall a, first_array items = Some a ->
                 nth 0 rest 0.5 = Numpy.mean (Numpy.data a)).
Proof.
  induction items as [| [key v] items IH]; intros acc f H;
    cbn [CropHealthAnalyzer.index_loop] in H.
  - injection H as <-. exists []. rewrite app_nil_r.
    repeat split; try reflexivity; discriminate.
  - destruct v as [a | q].
    + unfold CropHealthAnalyzer.index_statistics in H.
      destruct (amin (Numpy.data a)) as [lo | e]; [| discriminate].
      destruct (amax (Numpy.data a)) as [hi | e]; [| discriminate].
      cbn [rbind] in H.
      destruct (IH _ _ H) as (rest & Hf & Hlen & _).
      eexists. split; [rewrite Hf, <- app_assoc; reflexivity |].
      split.
      * rewrite length_app, Hlen. cbn [List.length count_arrays]. lia.
      * intros a' Ha. cbn [first_array] in Ha. injection Ha as <-.
        reflexivity.
    + destruct (IH _ _ H) as (rest & Hf & Hlen & Hfirst).
      exists rest. repeat split; assumption.
Qed.

(** X8.  When [_extract_health_features] completes, the feature vector holds
    six statistics per array-valued index, in dict order, followed by six
    spectral-curve features when the data is 3-D. *)
Theorem health_features_length
    (sqrt : Q -> Q) (a : ndarray) (spectral_indices : list (string * index_value))
    (features : list Q) :
  CropHealthAnalyzer._extract_health_features sqrt (PArray a) spectral_indices
  = Ok features ->
  List.length features
  = (6 * count_arrays spectral_indices
     + (if (List.length (shape a) =? 3)%nat then 6 else 0))%nat.
Proof.
  unfold CropHealthAnalyzer._extract_health_features. intro H.
  destruct (CropHealthAnalyzer.index_loop sqrt [] spectral_indices)
    as [f |] eqn:E; [| discriminate].
  destruct (index_loop_inv sqrt spectral_indices [] f E) as (rest & Hf & Hlen & _).
  cbn [app] in Hf. subst rest.
  cbn [rbind shape_of] in H.
  destruct (List.length (shape a) =? 3)%nat.
  - destruct (CropHealthAnalyzer._calculate_red_edge_slope (mean_axis01 a));
      [| discriminate].
    cbn [rbind] in H.
    destruct (amax (slice None (Some 50%Z) (mean_axis01 a))); [| discriminate].
    destruct (amax (slice (Some 50%Z) (Some 100%Z) (mean_axis01 a)));
      [| discriminate].
    destruct (amin (slice (Some 100%Z) (Some 150%Z) (mean_axis01 a)));
      [| discriminate].
    destruct (amax (slice (Some 150%Z) None (mean_axis01 a))); [| discriminate].
    cbn [rbind] in H. injection H as <-.
    rewrite !length_app, Hlen. cbn [List.length]. lia.
  - injection H as <-. rewrite Hlen. lia.
Qed.

Lemma health_features_length_witness :
  List.length [0.5; sqrt3 (Numpy.mean [(0.5 - Numpy.mean [0.5])
                                       * (0.5 - Numpy.mean [0.5])]);
               Numpy.percentile [0.5] 25; Numpy.percentile [0.5] 75;
               0.5; 0.5]
  = (6 * count_arrays ndvi_only
     + (if (List.length [1; 1]%nat =? 3)%nat then 6 else 0))%nat.
Proof.
  apply (health_features_length sqrt3
           {| shape := [1; 1]%nat; data := [0.5] |} ndvi_only).
  reflexivity.
Defined.

(** X9.  The feature that the chlorophyll and nutrient analysers read as the
    mean NDVI is the mean of the first array-valued entry of the index
    dict, whatever its key. *)
Theorem first_feature_is_first_index_mean
    (sqrt : Q -> Q) (hyperspectral_data : pyobj)
    (spectral_indices : list (string * index_value))
    (features : list Q) (a : ndarray) :
  CropHealthAnalyzer._extract_health_features
    sqrt hyperspectral_data spectral_indices = Ok features ->
  first_array spectral_indices = Some a ->
  nth 0 features 0.5 = Numpy.mean (Numpy.data a).
Proof.
  unfold CropHealthAnalyzer._extract_health_features. intros H Ha.
  destruct (CropHealthAnalyzer.index_loop sqrt [] spectral_indices)
    as [f |] eqn:E; [| discriminate].
  destruct (index_loop_inv sqrt spectral_indices [] f E)
    as (rest & Hf & Hlen & Hfirst).
  cbn [app] in Hf. subst rest.
  specialize (Hfirst a Ha).
  assert (Hne : f <> []).
  { intro Hnil. rewrite Hnil in Hlen. cbn [List.length] in Hlen.
    destruct spectral_indices as [| [key v] rest]; [discriminate |].
    clear - Ha Hlen. revert Ha Hlen.
    generalize ((key, v) :: rest). intro l.
    induction l as [| [k' v'] l IH]; [discriminate |].
    destruct v'; cbn [first_array count_arrays]; intros; [lia | auto]. }
  assert (Hprefix : forall tail, nth 0 (f ++ tail) 0.5 = nth 0 f 0.5).
  { intro tail. destruct f; [contradiction | reflexivity]. }
  cbn [rbind] in H.
  destruct (shape_of hyperspectral_data) as [shp | e]; [| discriminate].
  cbn [rbind] in H.
  destruct (List.length shp =? 3)%nat.
  - destruct hyperspectral_data as [arr |]; [| discriminate].
    destruct (CropHealthAnalyzer._calculate_red_edge_slope (mean_axis01 arr));
      [| discriminate].
    cbn [rbind] in H.
    destruct (amax (slice None (Some 50%Z) (mean_axis01 arr)));
      [| discriminate].
    destruct (amax (slice (Some 50%Z) (Some 100%Z) (mean_axis01 arr)));
      [| discriminate].
    destruct (amin (slice (Some 100%Z) (Some 150%Z) (mean_axis01 arr)));
      [| discriminate].
    destruct (amax (slice (Some 150%Z) None (mean_axis01 arr)));
      [| discriminate].
    cbn [rbind] in H. injection H as <-.
    rewrite <- !app_assoc, Hprefix. exact Hfirst.
  - injection H as <-. exact Hfirst.
Qed.

(** An index dict whose first array is EVI: the analysers read the EVI
    mean as their NDVI mean. *)
Lemma first_feature_is_first_index_mean_witness :
  nth 0 [0.25; sqrt3 (Numpy.mean [(0.25 - Numpy.mean [0.25])
                                  * (0.25 - Numpy.mean [0.25])]);
         Numpy.percentile [0.25] 25; Numpy.percentile [0.25] 75;
         0.25; 0.25;
         0.5; sqrt3 (Numpy.mean [(0.5 - Numpy.mean [0.5])
                                 * (0.5 - Numpy.mean [0.5])]);
         Numpy.percentile [0.5] 25; Numpy.percentile [0.5] 75;
         0.5; 0.5] 0.5
  = Numpy.mean [0.25].
Proof.
  apply (first_feature_is_first_index_mean sqrt3 flat_scene
           [("scene_mean", IScalar 0.1);
            ("evi", IArray {| shape := [1; 1]%nat; data := [0.25] |});
            ("ndvi", IArray {| shape := [1; 1]%nat; data := [0.5] |})]
           _ {| shape := [1; 1]%nat; data := [0.25] |});
    reflexivity.
Defined.

(** ** Soil analysis and the data *)

(** X14.  The soil estimators never read their features: on any two inputs on
    which feature extraction completes, [SoilAnalyzer.analyze] returns the
    same record and leaves the generator in the same state. *)
Theorem soil_result_ignores_data
    (sqrt : Q -> Q) (data1 data2 : pyobj) (now : string) (g : rng)
    (features1 features2 : list Q) :
  SoilAnalyzer._extract_soil_features sqrt data1 = Ok features1 ->
  SoilAnalyzer._extract_soil_features sqrt data2 = Ok features2 ->
  SoilAnalyzer.analyze sqrt data1 now g = SoilAnalyzer.analyze sqrt data2 now g.
Proof.
  intros H1 H2.
  unfold SoilAnalyzer.analyze, SoilAnalyzer.analyze_body, try_except, bind,
    lift.
  rewrite H1, H2. reflexivity.
Qed.

Lemma soil_result_ignores_data_witness :
  SoilAnalyzer.analyze sqrt3 flat_scene "" cycling_rng
  = SoilAnalyzer.analyze sqrt3 (uniform_cube 1 1 3 0.25) "" cycling_rng.
Proof.
  apply (soil_result_ignores_data sqrt3 flat_scene (uniform_cube 1 1 3 0.25)
           "" cycling_rng
           [0.5; 0.1; 0.8; 0.1; 50.0]
           [Numpy.mean (mean_axis01 {| shape := [1; 1; 3]%nat;
                                       data := repeat 0.25 (1 * 1 * 3) |});
            Numpy.std sqrt3
              (mean_axis01 {| shape := [1; 1; 3]%nat;
                              data := repeat 0.25 (1 * 1 * 3) |});
            0.25 / 1; 0.25 / 1;
            Numpy.trapz (mean_axis01 {| shape := [1; 1; 3]%nat;
                                        data := repeat 0.25 (1 * 1 * 3) |})]).
  - reflexivity.
  - reflexivity.
Defined.

(** ** The red-edge slope *)

Lemma of_nat_S (n : nat) : of_nat (S n) == of_nat n + 1.
Proof.
  unfold of_nat. rewrite Nat2Z.inj_succ. unfold Z.succ.
  rewrite inject_Z_plus. reflexivity.
Qed.

Lemma firstn_seq_prefix (k s len : nat) :
  (k <= len)%nat -> firstn k (seq s len) = seq s k.
Proof.
  revert s len. induction k as [| k IH]; intros s len H; [reflexivity |].
  destruct len as [| len]; [lia |].
  cbn [seq firstn]. f_equal. apply IH. lia.
Qed.

(** A slice with both bounds inside a mapped range. *)
Lemma slice_of_map_seq {A} (f : nat -> A) (n st len : nat) :
  (st + len <= n)%nat ->
  slice (Some (Z.of_nat st)) (Some (Z.of_nat (st + len))) (map f (seq 0 n))
  = map f (seq st len).
Proof.
  intro H. unfold slice, slice_index.
  rewrite length_map, length_seq.
  destruct (Z.of_nat st <? 0)%Z eqn:E1; [apply Z.ltb_lt in E1; lia |].
  destruct (Z.of_nat (st + len) <? 0)%Z eqn:E2; [apply Z.ltb_lt in E2; lia |].
  rewrite !Nat2Z.id.
  replace (Nat.min st n) with st by lia.
  replace (Nat.min (st + len) n) with (st + len)%nat by lia.
  replace (st + len - st)%nat with len by lia.
  rewrite skipn_map, firstn_map, skipn_seq, firstn_seq_prefix by lia.
  reflexivity.
Qed.

Lemma red_edge_slope_linear (a b : Q) (n : nat) :
  (10 <= n)%nat ->
  exists slope,
    CropHealthAnalyzer._calculate_red_edge_slope (linear_spectrum a b n)
    = Ok slope /\
    slope == a.
Proof.
  intro Hn. unfold CropHealthAnalyzer._calculate_red_edge_slope.
  cbv zeta. unfold linear_spectrum. rewrite !length_map, !length_seq.
  set (st := Nat.min 60 (n - 10)).
  assert (Hst : Z.min 60 (Z.of_nat n - 10) = Z.of_nat st)
    by (unfold st; lia).
  assert (Hen : Z.min 70 (Z.of_nat n) = Z.of_nat (st + 10))
    by (unfold st; lia).
  rewrite Hst, Hen.
  destruct (Z.of_nat (st + 10) >? Z.of_nat st)%Z eqn:E;
    [| rewrite Z.gtb_ltb in E; apply Z.ltb_ge in E; lia].
  rewrite (slice_of_map_seq _ n st 10) by (unfold st; lia).
  rewrite length_map, length_seq.
  cbn [seq map arange polyfit1 rbind fst List.length dot Numpy.sum].
  eexists. split; [reflexivity |].
  rewrite !of_nat_S. change (of_nat 0) with 0.
  set (t := of_nat st). field.
Qed.

(** A slice with both bounds inside the list. *)
Lemma slice_inside {A} (l : list A) (st len : nat) :
  (st + len <= List.length l)%nat ->
  slice (Some (Z.of_nat st)) (Some (Z.of_nat (st + len))) l
  = firstn len (skipn st l).
Proof.
  intro H. unfold slice, slice_index.
  destruct (Z.of_nat st <? 0)%Z eqn:E1; [apply Z.ltb_lt in E1; lia |].
  destruct (Z.of_nat (st + len) <? 0)%Z eqn:E2; [apply Z.ltb_lt in E2; lia |].
  rewrite !Nat2Z.id.
  replace (Nat.min st (List.length l)) with st by lia.
  replace (Nat.min (st + len) (List.length l)) with (st + len)%nat by lia.
  replace (st + len - st)%nat with len by lia.
  reflexivity.
Qed.

(** X10.  On every spectrum of at least ten bands
    [_calculate_red_edge_slope] completes, and what it returns is the
    least-squares slope of its ten-band window - bands 60..69, or the last
    ten bands of a spectrum with fewer than 70 - against 0..9; on an
    exactly linear spectrum [a * i + b] that slope is [a]. *)
Theorem red_edge_slope_is_window_fit (spectrum : list Q) :
  (10 <= List.length spectrum)%nat ->
  exists slope,
    CropHealthAnalyzer._calculate_red_edge_slope spectrum = Ok slope /\
    slope == centred_slope (red_edge_window spectrum) /\
    (forall a b,
        spectrum = linear_spectrum a b (List.length spectrum) ->
        slope == a).
Proof.
  intro Hn.
  assert (Hfit : exists slope,
             CropHealthAnalyzer._calculate_red_edge_slope spectrum = Ok slope /\
             slope == centred_slope (red_edge_window spectrum)).
  { unfold CropHealthAnalyzer._calculate_red_edge_slope, red_edge_window.
    cbv zeta.
    set (n := List.length spectrum) in *.
    set (st := Nat.min 60 (n - 10)).
    assert (Hst : Z.min 60 (Z.of_nat n - 10) = Z.of_nat st)
      by (unfold st; lia).
    assert (Hen : Z.min 70 (Z.of_nat n) = Z.of_nat (st + 10))
      by (unfold st; lia).
    rewrite Hst, Hen.
    destruct (Z.of_nat (st + 10) >? Z.of_nat st)%Z eqn:E;
      [| rewrite Z.gtb_ltb in E; apply Z.ltb_ge in E; lia].
    rewrite (slice_inside spectrum st 10) by (fold n; unfold st; lia).
    assert (Hlen : List.length (firstn 10 (skipn st spectrum)) = 10%nat)
      by (rewrite length_firstn, length_skipn; fold n; unfold st; lia).
    destruct (firstn 10 (skipn st spectrum))
      as [| y0 [| y1 [| y2 [| y3 [| y4 [| y5 [| y6 [| y7 [| y8 [| y9 [| ? ?]]]]]]]]]]];
      cbn [List.length] in Hlen; try lia.
    unfold centred_slope.
    cbn [seq map arange polyfit1 rbind fst List.length dot Numpy.sum].
    eexists. split; [reflexivity |].
    rewrite !of_nat_S. change (of_nat 0) with 0. field. }
  destruct Hfit as (slope & Hs & Hc).
  exists slope. split; [exact Hs |]. split; [exact Hc |].
  intros a b Hlin.
  destruct (red_edge_slope_linear a b (List.length spectrum) Hn)
    as (slope' & Hs' & Ha).
  rewrite <- Hlin, Hs in Hs'. injection Hs' as <-. exact Ha.
Qed.

(** A twelve-band spectrum: the fit runs over its bands 2..11. *)
Lemma red_edge_slope_is_window_fit_witness :
  exists slope,
    CropHealthAnalyzer._calculate_red_edge_slope
      [0.05; 0.05; 0.04; 0.05; 0.04; 0.06; 0.1; 0.2; 0.35; 0.5; 0.6; 0.7]
    = Ok slope /\
    slope == centred_slope
               (red_edge_window
                  [0.05; 0.05; 0.04; 0.05; 0.04; 0.06;
                   0.1; 0.2; 0.35; 0.5; 0.6; 0.7]) /\
    (forall a b,
        [0.05; 0.05; 0.04; 0.05; 0.04; 0.06; 0.1; 0.2; 0.35; 0.5; 0.6; 0.7]
        = linear_spectrum a b
            (List.length
               [0.05; 0.05; 0.04; 0.05; 0.04; 0.06;
                0.1; 0.2; 0.35; 0.5; 0.6; 0.7]) ->
        slope == a).
Proof.
  apply red_edge_slope_is_window_fit. cbn [List.length]. lia.
Defined.

(** ** Pest kinds and recommendations *)

(** The reported kind and the recommendation of a created detection come
    from the entry of its pest type. *)
Lemma create_kind (pest_type : string) (h w : nat)
    (g : rng) (x : PestDetector.Detection) (g' : rng) :
  PestDetector._create_pest_detection pest_type h w g = (Ok x, g') ->
  PestDetector.type x = title (replace_underscore pest_type) /\
  In (PestDetector.recommendation x)
     (Py.get PestDetector.recommendations pest_type ["Monitor closely"]).
Proof.
  unfold PestDetector._create_pest_detection. intro H.
  apply bind_inv in H as (sev & g1 & _ & H).
  apply bind_inv in H as (range & g1' & _ & H).
  apply bind_inv in H as (c & g2 & _ & H).
  apply bind_inv in H as (lx & g3 & _ & H).
  apply bind_inv in H as (ly & g4 & _ & H).
  apply bind_inv in H as (r & g5 & Hr & H).
  injection H as H _. subst x.
  cbn [PestDetector.type PestDetector.recommendation].
  split; [reflexivity | apply (choice_in _ _ _ _ Hr)].
Qed.

Lemma catalogued_of_key (pest_type : string) (x : PestDetector.Detection) :
  In pest_type (keys PestDetector.pest_database) ->
  PestDetector.type x = title (replace_underscore pest_type) ->
  In (PestDetector.recommendation x)
     (Py.get PestDetector.recommendations pest_type ["Monitor closely"]) ->
  catalogued x.
Proof.
  intros Hk Ht Hr. unfold catalogued, reported_catalogue.
  cbn [keys map fst PestDetector.pest_database In] in Hk.
  destruct Hk as [E | [E | [E | [E | []]]]]; subst pest_type;
    rewrite Ht; eexists; (split; [| exact Hr]); cbn; tauto.
Qed.

Lemma detection_loop_catalogued (h w n : nat) :
  forall acc g l g',
    Forall catalogued acc ->
    PestDetector.detection_loop n h w acc g = (Ok l, g') ->
    Forall catalogued l.
Proof.
  induction n as [| n IH]; intros acc g l g' Hacc H;
    cbn [PestDetector.detection_loop] in H.
  - injection H as H _. subst l. exact Hacc.
  - apply bind_inv in H as (p & g1 & Hp & H).
    apply bind_inv in H as (x & g2 & Hx & H).
    apply (IH (acc ++ [x]) g2 l g'); [| exact H].
    apply Forall_app. split; [exact Hacc |].
    constructor; [| constructor].
    destruct (create_kind _ _ _ _ _ _ Hx) as [Ht Hr].
    apply (catalogued_of_key p x (choice_in _ _ _ _ Hp) Ht Hr).
Qed.

(** X17.  Every detection returned by [PestDetector.detect] reports one of the
    four catalogued kinds, under its title-cased name, together with one
    of the three candidate recommendations of that kind. *)
Theorem detections_are_catalogued (hyperspectral_data : pyobj) (g : rng) :
  Forall catalogued (fst (PestDetector.detect hyperspectral_data g)).
Proof.
  destruct (PestDetector.generate hyperspectral_data g) as [[l | e] g1] eqn:E.
  - rewrite (detect_after_generate _ _ _ _ E). cbn [fst].
    apply (Permutation_Forall (Permutation_sym (sort_desc_perm _ l))).
    apply generate_inv in E as (a & h & w & z & g0 & _ & _ & _ & E).
    apply (detection_loop_catalogued h w _ [] g0 l g1 (Forall_nil _) E).
  - rewrite (detect_after_raise _ _ _ _ E). constructor.
Qed.

(** X18.  The first detection tells whether there is a High one: the list is
    sorted, so no detection is High unless the first one is. *)
Theorem high_detection_is_first (hyperspectral_data : pyobj) (g : rng) :
  let out := fst (PestDetector.detect hyperspectral_data g) in
  filter (fun p => String.eqb (PestDetector.severity p) "High") out = [] <->
  match out with
  | [] => True
  | first :: _ => PestDetector.severity first <> "High"
  end.
Proof.
  cbv zeta.
  destruct (PestDetector.generate hyperspectral_data g) as [[l | e] g1] eqn:E;
    [| rewrite (detect_after_raise _ _ _ _ E); cbn; tauto].
  rewrite (detect_after_generate _ _ _ _ E). cbn [fst].
  pose proof (sort_desc_sorted severity_rank l) as Hsorted.
  assert (Hsev : Forall (fun x => In (PestDetector.severity x)
                                     PestDetector.severities)
                        (sort_desc severity_rank l)).
  { apply (Permutation_Forall (Permutation_sym (sort_desc_perm _ l))).
    apply (generate_severities _ _ _ _ E). }
  destruct (sort_desc severity_rank l) as [| x out]; [cbn; tauto |].
  split.
  - cbn [filter]. intros Hf Hx. rewrite Hx in Hf. discriminate.
  - intro Hx. inversion Hsorted as [| ? ? _ Hall]; subst.
    inversion Hsev as [| ? ? Hx1 Hrest]; subst.
    assert (Hlow : (severity_rank x < 3)%Z).
    { destruct (severity_rank_values x Hx1)
        as [[E1 _] | [[_ E2] | [_ E3]]]; [contradiction | lia | lia]. }
    cbn [filter].
    destruct (String.eqb (PestDetector.severity x) "High") eqn:Ex;
      [apply String.eqb_eq in Ex; contradiction |].
    assert (Hnone : Forall (fun y => String.eqb (PestDetector.severity y)
                                                "High" = false) out).
    { rewrite Forall_forall in *. intros y Hy.
      specialize (Hall y Hy). specialize (Hrest y Hy).
      destruct (String.eqb (PestDetector.severity y) "High") eqn:Ey;
        [| reflexivity].
      apply String.eqb_eq in Ey.
      destruct (severity_rank_values y Hrest)
        as [[_ E1] | [[E2 _] | [E3 _]]];
        [lia | rewrite Ey in E2; discriminate
         | rewrite Ey in E3; discriminate]. }
    clear - Hnone. induction Hnone as [| y out Hy _ IH]; [reflexivity |].
    cbn [filter]. rewrite Hy. exact IH.
Qed.

(** ** Cubes with few bands *)

(** A cube on the 120-band grid of 400-1000nm at 5nm. *)
Lemma few_bands_analysis_is_default_witness :
  CropHealthAnalyzer.analyze sqrt3 (uniform_cube 1 1 120 0.5) ndvi_only ""
    cycling_rng
  = (CropHealthAnalyzer.default_result "", cycling_rng).
Proof.
  apply (few_bands_analysis_is_default sqrt3
           {| shape := [1; 1; 120]%nat; data := repeat 0.5 (1 * 1 * 120) |}
           ndvi_only 1 1 120 "" cycling_rng).
  - reflexivity.
  - lia.
Defined.

(** ** Detections within closed bounds *)

(** X16.  Under the generator's contract every detection returned by
    [PestDetector.detect] on an array of height [h] and width [w] has one
    of the three severities with a confidence within the closed band of
    that severity ([0.6, 0.8], [0.7, 0.9], [0.8, 0.95]), hence within
    [0, 1], and a location with 0 <= location_x <= w and
    0 <= location_y <= h, in pixels. *)
Theorem detections_within_closed_bounds
    (a : ndarray) (h w : nat) (g : rng) :
  unit_samples g ->
  PestDetector.unpack_height_width (shape a) = Ok (h, w) ->
  Forall (detection_in_closed_scene h w)
         (fst (PestDetector.detect (PArray a) g)).
Proof.
  intros Hu Hhw.
  eapply Forall_impl; [| apply (detect_in_scene a h w g Hu Hhw)].
  intros x (Hband & Hx & Hy). unfold detection_in_closed_scene.
  split; [| split; [| split; assumption]].
  - destruct Hband as [(E & H0 & H1) | [(E & H0 & H1) | (E & H0 & H1)]];
      [left | right; left | right; right];
      (split; [exact E | split; lra]).
  - destruct Hband as [(E & H0 & H1) | [(E & H0 & H1) | (E & H0 & H1)]];
      split; lra.
Qed.

Lemma detections_within_closed_bounds_witness :
  Forall (detection_in_closed_scene 2 2)
         (fst (PestDetector.detect (uniform_cube 2 2 1 0.5) mixed_rng)).
Proof.
  apply (detections_within_closed_bounds
           {| shape := [2; 2; 1]%nat; data := repeat 0.5 (2 * 2 * 1) |}
           2 2 mixed_rng).
  - intro k. unfold mixed_rng, table_rng. cbn [samples].
    do 19 (destruct k as [| k]; [cbn [nth]; split; lra |]).
    destruct k; cbn [nth]; split; lra.
  - reflexivity.
Defined.

(** ** The upload filter *)

Lemma rpartition_none (sep : ascii) (s : string) :
  App.rpartition sep s = None <-> App.contains sep s = false.
Proof.
  induction s as [| c s IH]; cbn [App.rpartition App.contains].
  - tauto.
  - destruct (App.rpartition sep s) as [[b a] |].
    + split; [discriminate |]. intro H.
      apply orb_false_iff in H as [_ H]. apply IH in H. discriminate.
    + destruct (Ascii.eqb c sep); cbn [orb].
      * split; discriminate.
      * rewrite <- IH. tauto.
Qed.

Lemma rpartition_split (sep : ascii) (s : string) :
  forall pre post,
    App.rpartition sep s = Some (pre, post) ->
    s = (pre ++ String sep post)%string /\ App.contains sep post = false.
Proof.
  induction s as [| c s IH]; intros pre post H; cbn [App.rpartition] in H;
    [discriminate |].
  destruct (App.rpartition sep s) as [[b a] |] eqn:E.
  - injection H as <- <-. destruct (IH b a eq_refl) as [Hs Ha].
    split; [cbn; rewrite Hs; reflexivity | exact Ha].
  - destruct (Ascii.eqb c sep) eqn:Ec; [| discriminate].
    injection H as <- <-. apply Ascii.eqb_eq in Ec. subst c.
    split; [reflexivity | apply rpartition_none; exact E].
Qed.

Lemma rpartition_of_split (sep : ascii) (pre post : string) :
  App.contains sep post = false ->
  App.rpartition sep (pre ++ String sep post)%string = Some (pre, post).
Proof.
  intro Hc. induction pre as [| c pre IH]; cbn [String.append App.rpartition].
  - apply rpartition_none in Hc. rewrite Hc, Ascii.eqb_refl. reflexivity.
  - rewrite IH. reflexivity.
Qed.

Lemma contains_after_prefix (sep : ascii) (pre post : string) :
  App.contains sep (pre ++ String sep post)%string = true.
Proof.
  induction pre as [| c pre IH]; cbn [String.append App.contains].
  - rewrite Ascii.eqb_refl. reflexivity.
  - rewrite IH. apply orb_true_r.
Qed.

Lemma in_set_In (x : string) (s : list string) :
  App.in_set x s = true <-> In x s.
Proof.
  unfold App.in_set. rewrite existsb_exists. split.
  - intros (y & Hy & E). apply String.eqb_eq in E. subst y. exact Hy.
  - intro H. exists x. split; [exact H | apply String.eqb_refl].
Qed.

(** X21.  [allowed_file] never raises, and it accepts exactly the names whose
    text after the last dot is, up to letter case, one of the allowed
    extensions; a name without a dot is refused. *)
Theorem allowed_file_by_last_extension (filename : string) :
  exists verdict,
    App.allowed_file filename = Ok verdict /\
    (verdict = true <->
     exists base ext,
       filename = (base ++ String "."%char ext)%string /\
       App.contains "."%char ext = false /\
       In (App.lower ext) App.ALLOWED_EXTENSIONS).
Proof.
  unfold App.allowed_file, App.rsplit1.
  destruct (App.contains "."%char filename) eqn:Ec.
  - destruct (App.rpartition "."%char filename) as [[b a] |] eqn:E.
    + cbn [App.list_getitem nth_error rbind]. eexists. split; [reflexivity |].
      destruct (rpartition_split _ _ _ _ E) as [Hs Ha].
      rewrite in_set_In. split.
      * intro H. exists b, a. repeat split; assumption.
      * intros (base & ext & Hf & Hd & Hin).
        rewrite Hf, (rpartition_of_split _ base ext Hd) in E.
        injection E as _ <-. exact Hin.
    + apply rpartition_none in E. rewrite E in Ec. discriminate.
  - exists false. split; [reflexivity |]. split; [discriminate |].
    intros (base & ext & Hf & _ & _). exfalso.
    rewrite Hf, contains_after_prefix in Ec. discriminate.
Qed.

(** ** The field status *)

(** X19.  The field status agrees with the health status of the same score: an
    'excellent' score makes an 'Excellent' field and a 'poor' one a 'Poor'
    field; a 'Poor' field has an 'attention_needed' or 'poor' score, an
    'Excellent' field a 'healthy' or 'excellent' one; and a field needs
    attention only with a score in [60, 80) and a High detection. *)
Theorem field_status_agrees_with_health_status
    (overall_score : Q) (pest_results : list PestDetector.Detection) :
  let field := App.field_status overall_score pest_results in
  let status := CropHealthAnalyzer._get_health_status overall_score in
  (status = "excellent" -> field = "Excellent") /\
  (status = "poor" -> field = "Poor") /\
  (field = "Poor" -> status = "attention_needed" \/ status = "poor") /\
  (field = "Excellent" -> status = "healthy" \/ status = "excellent") /\
  (field = "Attention Needed" ->
   60 <= overall_score /\ overall_score < 80 /\
   exists p, In p pest_results /\ PestDetector.severity p = "High").
Proof.
  cbv zeta. unfold App.field_status, CropHealthAnalyzer._get_health_status.
  cbn [CropHealthAnalyzer.excellent CropHealthAnalyzer.healthy
       CropHealthAnalyzer.attention_needed
       CropHealthAnalyzer.health_thresholds].
  set (high := filter (fun p => String.eqb (PestDetector.severity p) "High")
                      pest_results).
  assert (Hhigh : high <> [] ->
                  exists p, In p pest_results /\
                            PestDetector.severity p = "High").
  { intro Hne. destruct high as [| p rest] eqn:E; [contradiction |].
    assert (Hp : In p high) by (rewrite E; left; reflexivity).
    unfold high in Hp. apply filter_In in Hp as [Hin Hs].
    exists p. split; [exact Hin | apply String.eqb_eq; exact Hs]. }
  destruct (Qle_bool 80 overall_score) eqn:E80;
    [apply Qle_bool_iff in E80
    | apply not_true_iff_false in E80; rewrite Qle_bool_iff in E80;
      apply Qnot_le_lt in E80];
    (destruct (Qle_bool 60 overall_score) eqn:E60;
     [apply Qle_bool_iff in E60
     | apply not_true_iff_false in E60; rewrite Qle_bool_iff in E60;
       apply Qnot_le_lt in E60]);
    (destruct (Qle_bool 90 overall_score) eqn:E90;
     [apply Qle_bool_iff in E90
     | apply not_true_iff_false in E90; rewrite Qle_bool_iff in E90;
       apply Qnot_le_lt in E90]);
    (destruct (Qle_bool 70 overall_score) eqn:E70;
     [apply Qle_bool_iff in E70
     | apply not_true_iff_false in E70; rewrite Qle_bool_iff in E70;
       apply Qnot_le_lt in E70]);
    (destruct (Qle_bool 50 overall_score) eqn:E50;
     [apply Qle_bool_iff in E50
     | apply not_true_iff_false in E50; rewrite Qle_bool_iff in E50;
       apply Qnot_le_lt in E50]);
    try lra;
    (destruct (List.length high =? 0)%nat eqn:El;
     [apply Nat.eqb_eq in El | apply Nat.eqb_neq in El]);
    repeat split; intros; try discriminate; try lra; auto;
    apply Hhigh; intro Hn; rewrite Hn in El; apply El; reflexivity.
Qed.

Lemma field_status_agrees_with_health_status_witness :
  (CropHealthAnalyzer._get_health_status 95 = "excellent" ->
   App.field_status 95 [] = "Excellent") /\
  (App.field_status 40 [] = "Poor" ->
   CropHealthAnalyzer._get_health_status 40 = "attention_needed" \/
   CropHealthAnalyzer._get_health_status 40 = "poor").
Proof.
  destruct (field_status_agrees_with_health_status 95 []) as (H1 & _).
  destruct (field_status_agrees_with_health_status 40 [])
    as (_ & _ & H3 & _).
  split; [exact H1 | exact H3].
Defined.

(** X20.  Handed an object without a [shape], as the dict that
    [load_and_preprocess] returns and [process_hyperspectral_image_async]
    passes on, the three analysers answer with their defaults whatever the
    generator holds, and the field status derived from them is
    'Healthy'. *)
Theorem dict_input_gives_healthy_field
    (sqrt : Q -> Q) (spectral_indices : list (string * index_value))
    (now : string) (g1 g2 g3 : rng) :
  let health := fst (CropHealthAnalyzer.analyze
                       sqrt PObject spectral_indices now g1) in
  let pests := fst (PestDetector.detect PObject g2) in
  let soil := fst (SoilAnalyzer.analyze sqrt PObject now g3) in
  health = CropHealthAnalyzer.default_result now /\
  pests = [] /\
  soil = SoilAnalyzer.default_result now /\
  App.field_status (CropHealthAnalyzer.overall_score health) pests
  = "Healthy".
Proof.
  cbv zeta.
  assert (Hh : fst (CropHealthAnalyzer.analyze
                      sqrt PObject spectral_indices now g1)
               = CropHealthAnalyzer.default_result now).
  { unfold CropHealthAnalyzer.analyze, CropHealthAnalyzer.analyze_body,
      try_except, bind, lift, CropHealthAnalyzer._extract_health_features.
    destruct (CropHealthAnalyzer.index_loop sqrt [] spectral_indices);
      reflexivity. }
  rewrite Hh. repeat split.
Qed.

(** ** The simulated vegetation spectrum *)

Lemma band_value_spec (wl : Q) (g : rng) :
  unit_samples g ->
  exists v g1,
    HyperspectralProcessor.band_value wl g = (Ok v, g1) /\
    samples g1 = samples g /\
    in_region wl v.
Proof.
  intro Hu. destruct (Hu (cursor g)) as [H0 H1].
  unfold HyperspectralProcessor.band_value, HyperspectralProcessor.random.
  case_ltb wl 500; [| case_ltb wl 600; [| case_ltb wl 700;
                                          [| case_ltb wl 750]]];
    (eexists; eexists; split; [reflexivity |]; split; [reflexivity |];
     unfold in_region; repeat split; intros; try lra; try reflexivity).
Qed.

Lemma update_spec (l : list Q) (v : Q) :
  forall i,
    (i < List.length l)%nat ->
    List.length (firstn i l ++ v :: skipn (S i) l) = List.length l /\
    nth i (firstn i l ++ v :: skipn (S i) l) 0 = v /\
    (forall k, k <> i ->
               nth k (firstn i l ++ v :: skipn (S i) l) 0 = nth k l 0).
Proof.
  induction l as [| x l IH]; intros i Hi; cbn [List.length] in Hi; [lia |].
  destruct i as [| i].
  - cbn. repeat split. intros [| k] Hk; [contradiction | reflexivity].
  - destruct (IH i ltac:(lia)) as (Hlen & Hnth & Hother).
    change (firstn (S i) (x :: l) ++ v :: skipn (S (S i)) (x :: l))
      with (x :: (firstn i l ++ v :: skipn (S i) l)).
    cbn [List.length nth]. repeat split.
    + rewrite Hlen. reflexivity.
    + exact Hnth.
    + intros [| k] Hk; [reflexivity |]. apply Hother. lia.
Qed.

Lemma setitem_spec (spectrum : list Q) (i : nat) (v : Q) :
  (i < List.length spectrum)%nat ->
  exists updated,
    HyperspectralProcessor.setitem spectrum i v = Ok updated /\
    List.length updated = List.length spectrum /\
    nth i updated 0 = v /\
    (forall k, k <> i -> nth k updated 0 = nth k spectrum 0).
Proof.
  intro Hi. unfold HyperspectralProcessor.setitem.
  rewrite (proj2 (Nat.ltb_lt _ _) Hi).
  eexists. split; [reflexivity |]. apply update_spec. exact Hi.
Qed.

Lemma spectrum_loop_spec (wavelengths : list Q) :
  forall i spectrum g,
    unit_samples g ->
    List.length spectrum = (i + List.length wavelengths)%nat ->
    exists out g',
      HyperspectralProcessor.spectrum_loop i wavelengths spectrum g
      = (Ok out, g') /\
      List.length out = List.length spectrum /\
      (forall k, (k < i)%nat -> nth k out 0 = nth k spectrum 0) /\
      (forall k, (k < List.length wavelengths)%nat ->
                 in_region (nth k wavelengths 0) (nth (i + k) out 0)).
Proof.
  induction wavelengths as [| wl rest IH]; intros i spectrum g Hu Hlen;
    cbn [HyperspectralProcessor.spectrum_loop List.length] in *.
  - exists spectrum, g.
    split; [reflexivity | split; [reflexivity | split]];
      intros k Hk; [reflexivity | lia].
  - destruct (band_value_spec wl g Hu) as (v & g1 & Hv & Hs & Hreg).
    rewrite (bind_ok _ _ _ _ _ Hv).
    destruct (setitem_spec spectrum i v ltac:(lia))
      as (updated & Hset & Hul & Hui & Huo).
    rewrite Hset. unfold lift at 1. unfold bind at 1.
    destruct (IH (S i) updated g1 (unit_samples_moved g g1 Hs Hu)
                ltac:(lia)) as (out & g' & Hrun & Hol & Hkeep & Hregs).
    exists out, g'. split; [exact Hrun |]. split; [lia |]. split.
    + intros k Hk. rewrite Hkeep by lia. apply Huo. lia.
    + intros [| k] Hk.
      * rewrite Nat.add_0_r, Hkeep by lia. rewrite Hui. exact Hreg.
      * replace (i + S k)%nat with (S i + k)%nat by lia.
        apply Hregs. lia.
Qed.

(** X23.  With a generator that honours its contract,
    [_generate_vegetation_spectrum] completes with one reflectance per
    wavelength, each within the range of its region (blue and red
    [0.04, 0.06], green [0.08, 0.12], the red-edge ramp, NIR [0.7, 0.9]);
    hence any red band and any NIR band of the spectrum give an NDVI above
    0.8. *)
Theorem vegetation_spectrum_regions (wavelengths : list Q) (g : rng) :
  unit_samples g ->
  exists spectrum g',
    HyperspectralProcessor._generate_vegetation_spectrum wavelengths g
    = (Ok spectrum, g') /\
    List.length spectrum = List.length wavelengths /\
    (forall i, (i < List.length wavelengths)%nat ->
               in_region (nth i wavelengths 0) (nth i spectrum 0)) /\
    (forall i j,
        (i < List.length wavelengths)%nat ->
        (j < List.length wavelengths)%nat ->
        600 <= nth i wavelengths 0 -> nth i wavelengths 0 < 700 ->
        750 <= nth j wavelengths 0 ->
        0.8 < (nth j spectrum 0 - nth i spectrum 0)
              / (nth j spectrum 0 + nth i spectrum 0)).
Proof.
  intro Hu. unfold HyperspectralProcessor._generate_vegetation_spectrum.
  destruct (spectrum_loop_spec wavelengths 0
              (repeat 0 (List.length wavelengths)) g Hu
              ltac:(rewrite repeat_length; reflexivity))
    as (out & g' & Hrun & Hlen & _ & Hreg).
  exists out, g'. split; [exact Hrun |].
  split; [rewrite Hlen, repeat_length; reflexivity |].
  split; [exact Hreg |].
  intros i j Hi Hj Hr1 Hr2 Hn.
  destruct (Hreg i Hi) as (_ & _ & Hred & _ & _).
  destruct (Hreg j Hj) as (_ & _ & _ & _ & Hnir).
  cbn [Nat.add] in Hred, Hnir.
  specialize (Hred Hr1 Hr2). specialize (Hnir Hn).
  apply Qlt_shift_div_l; lra.
Qed.

Lemma vegetation_spectrum_regions_witness :
  exists spectrum g',
    HyperspectralProcessor._generate_vegetation_spectrum
      [450; 550; 670; 720; 800] (constant_rng 0.75)
    = (Ok spectrum, g') /\
    List.length spectrum = List.length [450; 550; 670; 720; 800] /\
    (forall i, (i < List.length [450; 550; 670; 720; 800])%nat ->
               in_region (nth i [450; 550; 670; 720; 800] 0)
                         (nth i spectrum 0)) /\
    (forall i j,
        (i < List.length [450; 550; 670; 720; 800])%nat ->
        (j < List.length [450; 550; 670; 720; 800])%nat ->
        600 <= nth i [450; 550; 670; 720; 800] 0 ->
        nth i [450; 550; 670; 720; 800] 0 < 700 ->
        750 <= nth j [450; 550; 670; 720; 800] 0 ->
        0.8 < (nth j spectrum 0 - nth i spectrum 0)
              / (nth j spectrum 0 + nth i spectrum 0)).
Proof.
  apply (vegetation_spectrum_regions [450; 550; 670; 720; 800]
           (constant_rng 0.75)).
  intro k. cbn [constant_rng samples]. split; lra.
Defined.

(** ** The average health score *)




(** ** When feature extraction completes *)

Lemma amax_ok (l : list Q) : l <> [] -> exists v, amax l = Ok v.
Proof. destruct l; [contradiction | eexists; reflexivity]. Qed.

Lemma amin_ok (l : list Q) : l <> [] -> exists v, amin l = Ok v.
Proof. destruct l; [contradiction | eexists; reflexivity]. Qed.

Lemma nonempty_of_length {A} (l : list A) :
  (0 < List.length l)%nat -> l <> [].
Proof. destruct l; cbn; [lia | discriminate]. Qed.

(** The length of a slice with bounds that are not negative. *)
Lemma slice_length {A} (lo hi : nat) (l : list A) :
  List.length (slice (Some (Z.of_nat lo)) (Some (Z.of_nat hi)) l)
  = (Nat.min hi (List.length l) - Nat.min lo (List.length l))%nat.
Proof.
  unfold slice, slice_index.
  destruct (Z.of_nat lo <? 0)%Z eqn:E1; [apply Z.ltb_lt in E1; lia |].
  destruct (Z.of_nat hi <? 0)%Z eqn:E2; [apply Z.ltb_lt in E2; lia |].
  rewrite !Nat2Z.id, length_firstn, length_skipn. lia.
Qed.

Lemma slice_to_length {A} (hi : nat) (l : list A) :
  List.length (slice None (Some (Z.of_nat hi)) l)
  = Nat.min hi (List.length l).
Proof.
  unfold slice, slice_index.
  destruct (Z.of_nat hi <? 0)%Z eqn:E2; [apply Z.ltb_lt in E2; lia |].
  rewrite !Nat2Z.id, length_firstn. cbn [skipn]. lia.
Qed.

Lemma slice_from_length {A} (lo : nat) (l : list A) :
  List.length (slice (Some (Z.of_nat lo)) None l)
  = (List.length l - Nat.min lo (List.length l))%nat.
Proof.
  unfold slice, slice_index.
  destruct (Z.of_nat lo <? 0)%Z eqn:E1; [apply Z.ltb_lt in E1; lia |].
  rewrite !Nat2Z.id, length_firstn, length_skipn. lia.
Qed.

(** The red-edge fit completes on every spectrum of at least ten bands. *)
Lemma red_edge_slope_ok (spectrum : list Q) :
  (10 <= List.length spectrum)%nat ->
  exists slope,
    CropHealthAnalyzer._calculate_red_edge_slope spectrum = Ok slope.
Proof.
  intro Hn. unfold CropHealthAnalyzer._calculate_red_edge_slope. cbv zeta.
  set (n := List.length spectrum) in *.
  set (st := Nat.min 60 (n - 10)).
  assert (Hst : Z.min 60 (Z.of_nat n - 10) = Z.of_nat st)
    by (unfold st; lia).
  assert (Hen : Z.min 70 (Z.of_nat n) = Z.of_nat (st + 10))
    by (unfold st; lia).
  rewrite Hst, Hen.
  destruct (Z.of_nat (st + 10) >? Z.of_nat st)%Z eqn:E;
    [| rewrite Z.gtb_ltb in E; apply Z.ltb_ge in E; lia].
  assert (Hlen : List.length
                   (slice (Some (Z.of_nat st)) (Some (Z.of_nat (st + 10)))
                          spectrum) = 10%nat)
    by (rewrite slice_length; fold n; unfold st; lia).
  rewrite Hlen. cbn [arange seq map polyfit1 rbind].
  eexists. reflexivity.
Qed.

Lemma index_loop_ok (sqrt : Q -> Q) (items : list (string * index_value)) :
  arrays_nonempty items ->
  forall acc, exists f, CropHealthAnalyzer.index_loop sqrt acc items = Ok f.
Proof.
  induction 1 as [| [key v] items Hv _ IH]; intro acc;
    cbn [CropHealthAnalyzer.index_loop].
  - exists acc. reflexivity.
  - destruct v as [a | q]; [| apply IH].
    cbn [snd] in Hv. unfold CropHealthAnalyzer.index_statistics.
    destruct (amin_ok _ Hv) as (lo & Elo).
    destruct (amax_ok _ Hv) as (hi & Ehi).
    rewrite Elo, Ehi. cbn [rbind]. apply IH.
Qed.

(** X12.  On a 3-D cube with at least one pixel and more than 150 bands, and an
    index dict whose arrays are not empty, feature extraction completes, so
    the health analysis returns what its scoring computes and not the
    default record. *)
Theorem many_bands_analysis_is_computed
    (sqrt : Q -> Q) (a : ndarray) (spectral_indices : list (string * index_value))
    (h w b : nat) (now : string) (g : rng) :
  shape a = [h; w; b] -> (0 < h)%nat -> (0 < w)%nat -> (150 < b)%nat ->
  arrays_nonempty spectral_indices ->
  exists features g',
    CropHealthAnalyzer._extract_health_features
      sqrt (PArray a) spectral_indices = Ok features /\
    CropHealthAnalyzer.score features now g
    = (Ok (fst (CropHealthAnalyzer.analyze
                  sqrt (PArray a) spectral_indices now g)), g').
Proof.
  intros Hs _ _ Hb Hidx.
  assert (Hlen : List.length (mean_axis01 a) = b)
    by (apply (mean_axis01_length a h w b Hs)).
  assert (Hok : exists f,
             CropHealthAnalyzer._extract_health_features
               sqrt (PArray a) spectral_indices = Ok f).
  { unfold CropHealthAnalyzer._extract_health_features.
    destruct (index_loop_ok sqrt spectral_indices Hidx []) as (f0 & E0).
    rewrite E0. cbn [rbind shape_of]. rewrite Hs. cbn [List.length Nat.eqb].
    destruct (red_edge_slope_ok (mean_axis01 a) ltac:(lia)) as (sl & Esl).
    rewrite Esl. cbn [rbind].
    destruct (amax_ok (slice None (Some 50%Z) (mean_axis01 a))) as (v1 & E1).
    { apply nonempty_of_length.
      change 50%Z with (Z.of_nat 50).
      rewrite (slice_to_length 50 (mean_axis01 a)). lia. }
    destruct (amax_ok (slice (Some 50%Z) (Some 100%Z) (mean_axis01 a)))
      as (v2 & E2).
    { apply nonempty_of_length.
      change 50%Z with (Z.of_nat 50). change 100%Z with (Z.of_nat 100).
      rewrite (slice_length 50 100 (mean_axis01 a)). lia. }
    destruct (amin_ok (slice (Some 100%Z) (Some 150%Z) (mean_axis01 a)))
      as (v3 & E3).
    { apply nonempty_of_length.
      change 100%Z with (Z.of_nat 100). change 150%Z with (Z.of_nat 150).
      rewrite (slice_length 100 150 (mean_axis01 a)). lia. }
    destruct (amax_ok (slice (Some 150%Z) None (mean_axis01 a))) as (v4 & E4).
    { apply nonempty_of_length.
      change 150%Z with (Z.of_nat 150).
      rewrite (slice_from_length 150 (mean_axis01 a)). lia. }
    rewrite E1, E2, E3, E4. cbn [rbind]. eexists. reflexivity. }
  destruct Hok as (f & Ef).
  destruct (health_analyze_cases sqrt (PArray a) spectral_indices now g)
    as [(f' & g' & Ef' & Hsc) | (e & He & _)].
  - exists f', g'. split; assumption.
  - rewrite Ef in He. discriminate.
Qed.

Lemma many_bands_analysis_is_computed_witness :
  exists features g',
    CropHealthAnalyzer._extract_health_features
      sqrt3 (uniform_cube 1 1 151 0.5) ndvi_only = Ok features /\
    CropHealthAnalyzer.score features "" cycling_rng
    = (Ok (fst (CropHealthAnalyzer.analyze
                  sqrt3 (uniform_cube 1 1 151 0.5) ndvi_only ""
                  cycling_rng)), g').
Proof.
  apply (many_bands_analysis_is_computed sqrt3
           {| shape := [1; 1; 151]%nat; data := repeat 0.5 (1 * 1 * 151) |}
           ndvi_only 1 1 151 "" cycling_rng).
  - reflexivity.
  - lia.
  - lia.
  - lia.
  - repeat constructor. discriminate.
Defined.

(** X15.  Soil feature extraction completes on every array except a 3-D one
    without bands, and then yields five features; an array that is not 3-D
    gets the default features. *)
Theorem soil_features_complete (sqrt : Q -> Q) (a : ndarray) :
  (forall h w, shape a <> [h; w; 0%nat]) ->
  exists features,
    SoilAnalyzer._extract_soil_features sqrt (PArray a) = Ok features /\
    List.length features = 5%nat /\
    ((List.length (shape a) =? 3)%nat = false ->
     features = [0.5; 0.1; 0.8; 0.1; 50.0]).
Proof.
  intro Hb. unfold SoilAnalyzer._extract_soil_features.
  cbn [shape_of rbind].
  destruct (List.length (shape a) =? 3)%nat eqn:E.
  - apply Nat.eqb_eq in E.
    destruct (shape a) as [| h [| w [| b [| ? ?]]]] eqn:Es;
      cbn [List.length] in E; try lia.
    assert (Hlen : List.length (mean_axis01 a) = b)
      by (apply (mean_axis01_length a h w b Es)).
    assert (Hne : mean_axis01 a <> []).
    { apply nonempty_of_length. rewrite Hlen.
      destruct b; [exfalso; apply (Hb h w); reflexivity | lia]. }
    destruct (amax_ok _ Hne) as (hi & Ehi).
    destruct (amin_ok _ Hne) as (lo & Elo).
    rewrite Ehi, Elo. cbn [rbind].
    eexists. split; [reflexivity |]. split; [reflexivity | discriminate].
  - eexists. split; [reflexivity |]. split; reflexivity.
Qed.

Lemma soil_features_complete_witness :
  exists features,
    SoilAnalyzer._extract_soil_features sqrt3 (uniform_cube 1 1 3 0.25)
    = Ok features /\
    List.length features = 5%nat /\
    ((List.length [1; 1; 3]%nat =? 3)%nat = false ->
     features = [0.5; 0.1; 0.8; 0.1; 50.0]).
Proof.
  apply (soil_features_complete sqrt3
           {| shape := [1; 1; 3]%nat; data := repeat 0.25 (1 * 1 * 3) |}).
  intros h w. cbn [shape]. discriminate.
Defined.
